(** * Resume and job-description parser API: a shallow embedding of [app.py]

    The service is a linear pipeline over two libraries (PyPDF2, httpx) and a
    remote chat-completion endpoint.  The handlers are embedded as
    computations in a state-and-exception monad over an explicit [World]
    (file system, outbound requests, log); the libraries and the remote
    endpoint are an interface ([Externals]) every statement quantifies over.

    What is taken for granted about the platform: creating and writing the
    temporary file succeeds and picks a name that is not in use;
    [json.loads] on a [str] returns, or raises [JSONDecodeError],
    [ValueError] (integer literal over the digit limit) or [RecursionError]
    (nesting too deep); [await] is sequential within one request, and
    requests do not share state other than the file system and the log. *)

From Stdlib Require Import ZArith QArith String Ascii List.
From Stdlib.Strings Require Import Byte.
From stdpp Require Import base strings gmap pretty.

Set Warnings "-register-all".

Local Open Scope Z_scope.
Local Open Scope string_scope.

(** ** Python values

    The values the handlers build and receive are those of JSON documents:
    [None], booleans, numbers, strings, lists and dictionaries with string
    keys.  A dictionary keeps its items in insertion order. *)

Inductive value : Type :=
| VNone
| VBool (b : bool)
| VInt (n : Z)
| VFloat (q : Q)
| VStr (s : string)
| VList (items : list value)
| VDict (items : list (string * value)).

Inductive key : Type :=
| KStr (s : string)
| KInt (i : Z).

(** ** Exceptions *)

Inductive exc_class : Type :=
| KeyError
| IndexError
| TypeError
| ValueError
| JSONDecodeError        (* json.JSONDecodeError *)
| RecursionError
| RuntimeError
| FileNotFoundError
| PdfReadError           (* PyPDF2.errors.PdfReadError and its siblings *)
| RequestValidationError (* fastapi.exceptions.RequestValidationError *)
| ConnectTimeout         (* httpx.TimeoutException *)
| ReadTimeout
| WriteTimeout
| PoolTimeout
| ConnectError           (* httpx.NetworkError: DNS failure, refused connection *)
| ReadError
| WriteError
| CloseError
| LocalProtocolError     (* httpx.ProtocolError *)
| RemoteProtocolError
| ProxyError             (* the other httpx.TransportError classes *)
| UnsupportedProtocol
| DecodingError          (* the other httpx.RequestError classes *)
| TooManyRedirects
| OtherException.        (* any class that is none of the above and is not
                            a subclass of httpx.RequestError *)

(** [issubclass(c, httpx.RequestError)]: the transport errors (timeouts,
    network, protocol, proxy, unsupported protocol), [DecodingError] and
    [TooManyRedirects]. *)
Definition is_RequestError (c : exc_class) : bool :=
  match c with
  | ConnectTimeout | ReadTimeout | WriteTimeout | PoolTimeout
  | ConnectError | ReadError | WriteError | CloseError
  | LocalProtocolError | RemoteProtocolError
  | ProxyError | UnsupportedProtocol
  | DecodingError | TooManyRedirects => true
  | _ => false
  end.

Definition is_JSONDecodeError (c : exc_class) : bool :=
  match c with JSONDecodeError => true | _ => false end.

(** An exception in flight: FastAPI's [HTTPException(status_code, detail)],
    or an exception of a library or of the interpreter, with its class and
    [str(e)]. *)
Inductive exn : Type :=
| HTTPException (status_code : Z) (detail : string)
| PyError (cls : exc_class) (msg : string).

(** [str(e)]; Starlette prints an [HTTPException] as "status: detail". *)
Definition str_exn (e : exn) : string :=
  match e with
  | HTTPException s d => pretty s +:+ ": " +:+ d
  | PyError _ m => m
  end.

(** The ways [json.loads] fails on a [str], each with its class: malformed
    text ([JSONDecodeError]), an integer literal over the digit limit of the
    interpreter ([ValueError]), nesting too deep ([RecursionError]). *)
Inductive loads_failure : Type :=
| Malformed
| DigitLimit
| TooDeep.

Definition loads_failure_class (k : loads_failure) : exc_class :=
  match k with
  | Malformed => JSONDecodeError
  | DigitLimit => ValueError
  | TooDeep => RecursionError
  end.

(** What a library call gives back. *)
Inductive lib_result (A : Type) : Type :=
| LibOk (a : A)
| LibRaise (cls : exc_class) (msg : string).
Arguments LibOk {A} a.
Arguments LibRaise {A} cls msg.

Global Instance lib_result_bind : MBind lib_result := λ A B k r,
  match r with
  | LibOk a => k a
  | LibRaise c m => LibRaise c m
  end.

(** ** The world the handlers act on *)

Definition bytes : Type := list byte.

Record Request : Type := mkRequest {
  req_url : string;
  req_json : value;
  req_headers : list (string * string);
  req_timeout : Q
}.

Record Response : Type := mkResponse {
  status_code : Z;
  text : string
}.

Inductive level : Type := INFO | WARNING | ERROR.

Record World : Type := mkWorld {
  fs : gmap string bytes;          (* files by path *)
  sent : list Request;             (* requests posted to the remote endpoint *)
  log : list (level * string)      (* records emitted through [logger] *)
}.

Definition set_fs (f : gmap string bytes → gmap string bytes) (w : World) : World :=
  mkWorld (f (fs w)) (sent w) (log w).

Definition add_sent (r : Request) (w : World) : World :=
  mkWorld (fs w) (sent w ++ [r]) (log w).

Definition add_log (l : level) (m : string) (w : World) : World :=
  mkWorld (fs w) (sent w) (log w ++ [(l, m)]).

(** ** The monad of handlers: state and exceptions *)

Inductive Outcome (A : Type) : Type :=
| Return (a : A)
| Raise (e : exn).
Arguments Return {A} a.
Arguments Raise {A} e.

Definition M (A : Type) : Type := World → Outcome A * World.

Global Instance M_ret : MRet M := λ A a w, (Return a, w).

Global Instance M_bind : MBind M := λ A B k m w,
  match m w with
  | (Return a, w') => k a w'
  | (Raise e, w') => (Raise e, w')
  end.

Definition raise {A : Type} (e : exn) : M A := λ w, (Raise e, w).

(** [try: body  except <classes accepted by handles> as e: handler e] *)
Definition try_except {A : Type} (body : M A) (handles : exn → bool)
    (handler : exn → M A) : M A := λ w,
  match body w with
  | (Return a, w') => (Return a, w')
  | (Raise e, w') => if handles e then handler e w' else (Raise e, w')
  end.

(** [except Exception]: every exception of the model is one. *)
Definition except_Exception (e : exn) : bool := true.

(** [except httpx.RequestError]: [HTTPException] is not one. *)
Definition except_RequestError (e : exn) : bool :=
  match e with
  | PyError c _ => is_RequestError c
  | HTTPException _ _ => false
  end.

(** [except json.JSONDecodeError] *)
Definition except_JSONDecodeError (e : exn) : bool :=
  match e with
  | PyError c _ => is_JSONDecodeError c
  | HTTPException _ _ => false
  end.

Definition lift_lib {A : Type} (r : lib_result A) : M A :=
  match r with
  | LibOk a => mret a
  | LibRaise c m => raise (PyError c m)
  end.

Definition logger_info (m : string) : M unit := λ w, (Return tt, add_log INFO m w).
Definition logger_warning (m : string) : M unit := λ w, (Return tt, add_log WARNING m w).
Definition logger_error (m : string) : M unit := λ w, (Return tt, add_log ERROR m w).

(** ** Module start-up (lines 23-28) *)

Definition GROQ_API_KEY : string :=
  "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".

Definition GROQ_API_URL : string :=
  "https://api.groq.com/openai/v1/chat/completions".

(** Truth value of a [str]: false exactly for the empty string. *)
Definition str_truthy (s : string) : bool :=
  match s with EmptyString => false | String _ _ => true end.

(** Importing the module in a process whose environment is [environ]: the
    key is the literal of line 24, the environment is not consulted, and the
    guard of lines 25-26 inspects that literal. *)
Definition module_init (environ : gmap string string) : Outcome string :=
  if negb (str_truthy GROQ_API_KEY)
  then Raise (PyError ValueError "GROQ_API_KEY environment variable is not set")
  else Return GROQ_API_KEY.

(** ** Health probe (lines 261-265) *)

Definition health_check : M value :=
  _ ← logger_info "Health check request received";
  mret (VDict [("status", VStr "healthy"); ("version", VStr "1.0.0")]).

(** ** Subscripts: [v[k]] *)

Fixpoint dict_get (d : list (string * value)) (k : string) : option value :=
  match d with
  | [] => None
  | (k', v) :: d' => if String.eqb k' k then Some v else dict_get d' k
  end.

(** Position designated by index [i] in a sequence of length [len]; a
    negative index counts from the end. *)
Definition norm_index (i : Z) (len : nat) : option nat :=
  if ((0 <=? i) && (i <? Z.of_nat len))%Z then Some (Z.to_nat i)
  else if ((- Z.of_nat len <=? i) && (i <? 0))%Z
       then Some (Z.to_nat (Z.of_nat len + i))
       else None.

Definition getitem (v : value) (k : key) : lib_result value :=
  match v, k with
  | VDict d, KStr s =>
      match dict_get d s with
      | Some x => LibOk x
      | None => LibRaise KeyError ("'" +:+ s +:+ "'")
      end
  | VDict _, KInt i => LibRaise KeyError (pretty i)
  | VList l, KInt i =>
      match norm_index i (length l) ≫= (λ n, l !! n) with
      | Some x => LibOk x
      | None => LibRaise IndexError "list index out of range"
      end
  | VList _, KStr _ =>
      LibRaise TypeError "list indices must be integers or slices, not str"
  | VStr s, KInt i =>
      match norm_index i (String.length s) ≫= (λ n, String.get n s) with
      | Some c => LibOk (VStr (String c EmptyString))
      | None => LibRaise IndexError "string index out of range"
      end
  | VStr _, KStr _ => LibRaise TypeError "string indices must be integers, not 'str'"
  | VNone, _ => LibRaise TypeError "'NoneType' object is not subscriptable"
  | VBool _, _ => LibRaise TypeError "'bool' object is not subscriptable"
  | VInt _, _ => LibRaise TypeError "'int' object is not subscriptable"
  | VFloat _, _ => LibRaise TypeError "'float' object is not subscriptable"
  end.

(** [type(v).__name__] *)
Definition type_name (v : value) : string :=
  match v with
  | VNone => "NoneType"
  | VBool _ => "bool"
  | VInt _ => "int"
  | VFloat _ => "float"
  | VStr _ => "str"
  | VList _ => "list"
  | VDict _ => "dict"
  end.

(** [str(x)] of an optional string, as an f-string prints it. *)
Definition str_optional (o : option string) : string :=
  match o with Some s => s | None => "None" end.

(** ** The libraries and the remote endpoint

    PyPDF2, the [json] module, the operating system's choice of temporary
    names and the completion endpoint behind httpx are not code of the
    service; the handlers are written against this interface. *)

Class Externals : Type := {
  (** a page object of PyPDF2 *)
  Page : Type;
  (** [PyPDF2.PdfReader(file)] and its [pages], from the bytes of the file *)
  PdfReader : bytes → lib_result (list Page);
  (** [page.extract_text()] *)
  extract_text : Page → lib_result string;
  (** [json.loads(s)] on a [str]: the parsed value, or the failure and its
      message *)
  json_loads : string → loads_failure * string + value;
  (** [await client.post(...)]: the upstream's response, or the exception
      httpx raises *)
  AsyncClient_post : Request → lib_result Response;
  (** the name [tempfile.NamedTemporaryFile(suffix=...)] picks, given the
      paths that exist; it names no existing file *)
  mktemp_name : string → gset string → string;
  mktemp_name_fresh : ∀ suffix X, mktemp_name suffix X ∉ X
}.

(** Rewrites each apostrophe of a literal into a double quote, so that the
    prompts below can be written down as they stand in the source. *)
Fixpoint with_double_quotes (s : string) : string :=
  match s with
  | EmptyString => EmptyString
  | String c s' =>
      String (if Ascii.eqb c "'"%char then ascii_of_nat 34 else c)
             (with_double_quotes s')
  end.

(** The system prompt of the resume branch (lines 97-144). *)
Definition RESUME_SYSTEM_PROMPT : string := Eval vm_compute in with_double_quotes
  "
        You are an expert resume parser. Extract the following information from the resume text:
        1. Name of the candidate
        2. Email address
        3. Phone number
        4. Technical skills (list)
        5. Soft skills (list)
        6. Experience details:
           - Total years of experience
           - Job roles (list with company, title, duration)
           - Industry background
        7. Education details:
           - Degree(s)
           - University/Institution(s)
           - Tier ranking (if identifiable)
        8. Projects:
           - Name
           - Technologies used
           - Brief description
        
        Return the data in a structured JSON format with these exact keys:
        {
            'name': 'string',
            'email': 'string',
            'phone': 'string',
            'technical_skills': ['skill1', 'skill2', ...],
            'soft_skills': ['skill1', 'skill2', ...],
            'experience': {
                'total_years': number,
                'job_roles': [
                    {'company': 'string', 'title': 'string', 'duration': 'string'}
                ],
                'industry_background': 'string'
            },
            'education': {
                'degrees': ['string'],
                'institutions': ['string'],
                'tier_ranking': 'string'
            },
            'projects': [
                {
                    'name': 'string',
                    'technologies': ['string'],
                    'description': 'string'
                }
            ]
        }
        ".

(** The system prompt of the job-description branch (lines 147-177). *)
Definition JOB_SYSTEM_PROMPT : string := Eval vm_compute in with_double_quotes
  "
        You are an expert job description analyzer. Extract the following information from the job description text:
        1. Job title
        2. Company name
        3. Required skills (list)
        4. Preferred/nice-to-have skills (list)
        5. Experience requirements:
           - Minimum years required
           - Specific domain experience needed
        6. Education requirements:
           - Minimum degree required
           - Preferred fields of study
        7. Key responsibilities (list)
        
        Return the data in a structured JSON format with these exact keys:
        {
            'title': 'string',
            'company': 'string',
            'required_skills': ['skill1', 'skill2', ...],
            'preferred_skills': ['skill1', 'skill2', ...],
            'experience_requirements': {
                'minimum_years': number,
                'domain_experience': ['string']
            },
            'education_requirements': {
                'minimum_degree': 'string',
                'preferred_fields': ['string']
            },
            'responsibilities': ['string']
        }
        ".

(** ** The upload object *)

Record UploadFile : Type := mkUploadFile {
  filename : option string;
  content_type : option string;
  file_bytes : bytes               (* what [await pdf_file.read()] returns *)
}.

Section Handlers.

Context `{Ext : Externals}.

(** *** File-system primitives *)

(** [with tempfile.NamedTemporaryFile(delete=False, suffix=...) as f:
    f.write(data); temp_path = f.name] *)
Definition NamedTemporaryFile_write (suffix : string) (data : bytes) : M string :=
  λ w, let temp_path := mktemp_name suffix (dom (fs w)) in
       (Return temp_path, set_fs (insert temp_path data) w).

(** [open(path, "rb")], giving the bytes the reader will see *)
Definition open_rb (path : string) : M bytes := λ w,
  match fs w !! path with
  | Some data => (Return data, w)
  | None => (Raise (PyError FileNotFoundError path), w)
  end.

(** [os.unlink(path)] *)
Definition os_unlink (path : string) : M unit := λ w,
  match fs w !! path with
  | Some _ => (Return tt, set_fs (delete path) w)
  | None => (Raise (PyError FileNotFoundError path), w)
  end.

(** *** Text extractor (lines 66-91) *)

(** The loop of lines 81-82: [text += page.extract_text()], page by page. *)
Fixpoint extract_pages (pages : list Page) (text : string) : M string :=
  match pages with
  | [] => mret text
  | page :: rest =>
      t ← lift_lib (extract_text page);
      extract_pages rest (text +:+ t)
  end.

Definition extract_text_from_pdf (pdf_file : UploadFile) : M string :=
  try_except
    (temp_path ← NamedTemporaryFile_write ".pdf" (file_bytes pdf_file);
     _ ← logger_info ("Saved uploaded PDF to temporary file: " +:+ temp_path);
     file ← open_rb temp_path;
     pages ← lift_lib (PdfReader file);
     text ← extract_pages pages "";
     _ ← os_unlink temp_path;
     _ ← logger_info ("Extracted " +:+ pretty (String.length text)
                      +:+ " characters from PDF");
     mret text)
    except_Exception
    (λ e,
     _ ← logger_error ("Error extracting text from PDF: " +:+ str_exn e);
     raise (HTTPException 500 ("Error extracting text from PDF: " +:+ str_exn e))).

(** *** Completion client and response coercer (lines 93-226) *)

(** [await client.post(GROQ_API_URL, json=payload, headers=headers)] on a
    client built with [timeout=t]: one request leaves the process. *)
Definition client_post (t : Q) (url : string) (payload : value)
    (headers : list (string * string)) : M Response := λ w,
  let req := mkRequest url payload headers t in
  match AsyncClient_post req with
  | LibOk r => (Return r, add_sent req w)
  | LibRaise c m => (Raise (PyError c m), add_sent req w)
  end.

(** [json.loads(s)] as a computation *)
Definition json_loads_str (s : string) : M value :=
  match json_loads s with
  | inr v => mret v
  | inl (k, m) => raise (PyError (loads_failure_class k) m)
  end.

(** [response.json()] *)
Definition response_json (r : Response) : M value := json_loads_str (text r).

(** [json.loads(x)] on an arbitrary value: only a [str] is accepted. *)
Definition json_loads_value (x : value) : M value :=
  match x with
  | VStr s => json_loads_str s
  | _ => raise (PyError TypeError
                  ("the JSON object must be str, bytes or bytearray, not "
                   +:+ type_name x))
  end.

(** Lines 180-193. *)
Definition headers : list (string * string) :=
  [("Authorization", "Bearer " +:+ GROQ_API_KEY);
   ("Content-Type", "application/json")].

Definition payload (system_prompt text : string) : value :=
  VDict [("model", VStr "llama3-70b-8192");
         ("messages",
          VList [VDict [("role", VStr "system"); ("content", VStr system_prompt)];
                 VDict [("role", VStr "user"); ("content", VStr text)]]);
         ("temperature", VFloat 0.2%Q);
         ("response_format", VDict [("type", VStr "json_object")])].

(** Lines 96-178: the prompt selected by the flag, with its log record. *)
Definition select_prompt (is_resume : bool) : M string :=
  if is_resume
  then _ ← logger_info "Processing resume text"; mret RESUME_SYSTEM_PROMPT
  else _ ← logger_info "Processing job description text"; mret JOB_SYSTEM_PROMPT.

(** Line 209: [result["choices"][0]["message"]["content"]]. *)
Definition first_choice_content (result : value) : lib_result value :=
  choices ← getitem result (KStr "choices");
  choice ← getitem choices (KInt 0);
  message ← getitem choice (KStr "message");
  getitem message (KStr "content").

(** Lines 213-222, the response coercer: parse, or hand the input back. *)
Definition coerce (extracted_info : value) : M value :=
  try_except
    (parsed_info ← json_loads_value extracted_info;
     _ ← logger_info "Successfully parsed JSON response";
     mret parsed_info)
    except_JSONDecodeError
    (λ e,
     _ ← logger_warning ("JSON parsing error: " +:+ str_exn e);
     _ ← logger_info "Returning unparsed Groq API response";
     mret extracted_info).

(** Lines 201-206: a response whose status is not 200. *)
Definition upstream_error (response : Response) : M value :=
  _ ← logger_error ("Groq API Error: " +:+ pretty (status_code response)
                    +:+ " - " +:+ text response);
  raise (HTTPException (status_code response)
                       ("Groq API Error: " +:+ text response)).

(** Lines 208-222: a response whose status is 200. *)
Definition coerce_response (response : Response) : M value :=
  result ← response_json response;
  extracted_info ← lift_lib (first_choice_content result);
  _ ← logger_info "Successfully received response from Groq API";
  coerce extracted_info.

(** The request of lines 180-199 for a document and a flag. *)
Definition system_prompt_of (is_resume : bool) : string :=
  if is_resume then RESUME_SYSTEM_PROMPT else JOB_SYSTEM_PROMPT.

Definition groq_request (text : string) (is_resume : bool) : Request :=
  mkRequest GROQ_API_URL (payload (system_prompt_of is_resume) text) headers 60.0%Q.

Definition query_groq (text : string) (is_resume : bool) : M value :=
  system_prompt ← select_prompt is_resume;
  let payload := payload system_prompt text in
  _ ← logger_info ("Sending request to Groq API with model: " +:+ "llama3-70b-8192");
  try_except
    (response ← client_post 60.0%Q GROQ_API_URL payload headers;
     if negb (status_code response =? 200)%Z
     then upstream_error response
     else coerce_response response)
    except_RequestError
    (λ e,
     _ ← logger_error ("Error communicating with Groq API: " +:+ str_exn e);
     raise (HTTPException 500 ("Error communicating with Groq API: " +:+ str_exn e))).

(** *** Endpoints (lines 228-265) *)

(** Lines 239-246: what follows the content-type check. *)
Definition parse_resume_accepted (resume_file : UploadFile) : M value :=
  resume_text ← extract_text_from_pdf resume_file;
  parsed_info ← query_groq resume_text true;
  _ ← logger_info "Successfully parsed resume";
  mret parsed_info.

Definition parse_resume (resume_file : UploadFile) : M value :=
  _ ← logger_info ("Received resume parsing request: "
                   +:+ str_optional (filename resume_file));
  if negb (bool_decide (content_type resume_file = Some "application/pdf"))
  then
    _ ← logger_error ("Invalid file type: "
                      +:+ str_optional (content_type resume_file));
    raise (HTTPException 400 "Only PDF files are supported")
  else parse_resume_accepted resume_file.

Definition parse_job_description (job_description : string) : M value :=
  _ ← logger_info "Received job description parsing request";
  parsed_info ← query_groq job_description false;
  _ ← logger_info "Successfully parsed job description";
  mret parsed_info.

(** The routes of the application. *)
Inductive ApiRequest : Type :=
| POST_parse_resume (resume_file : UploadFile)
| POST_parse_job_description (job_description : string)
| GET_health.

(** Dispatch, with the validation FastAPI runs before a handler: the form
    field of line 249 is required ([Form(...)]), and an empty value counts
    as a missing one, so the handler is not called for it. *)
Definition app (r : ApiRequest) : M value :=
  match r with
  | POST_parse_resume f => parse_resume f
  | POST_parse_job_description s =>
      if str_truthy s then parse_job_description s
      else raise (PyError RequestValidationError "job_description: field required")
  | GET_health => health_check
  end.

End Handlers.

(** ** What the framework answers

    FastAPI answers a returned value with status 200, an [HTTPException]
    with its own status and a [detail] body, a [RequestValidationError] with
    422 and the list of errors, and Starlette answers any other exception
    with a plain 500.  The two parse routes declare a
    [response_model]: what is sent for a value they return is decided by
    pydantic's validation, which is outside this development ([None]). *)

Inductive ResponseBody : Type :=
| JSONBody (v : value)
| TextBody (s : string)
| ValidationErrors.              (* [{"detail": [...]}], worded by pydantic *)

Record HttpResponse : Type := mkHttpResponse {
  http_status : Z;
  http_body : ResponseBody
}.

Definition error_response (e : exn) : HttpResponse :=
  match e with
  | HTTPException s d => mkHttpResponse s (JSONBody (VDict [("detail", VStr d)]))
  | PyError RequestValidationError _ => mkHttpResponse 422 ValidationErrors
  | PyError _ _ => mkHttpResponse 500 (TextBody "Internal Server Error")
  end.

Definition serve `{Ext : Externals} (r : ApiRequest) (w : World)
    : option HttpResponse * World :=
  match app r w, r with
  | (Raise e, w'), _ => (Some (error_response e), w')
  | (Return v, w'), GET_health => (Some (mkHttpResponse 200 (JSONBody v)), w')
  | (Return v, w'), _ => (None, w')
  end.

(** ** The shape line 209 relies on, in the words of the specification

    The parsed body is an object with a non-empty "choices" list whose first
    element is an object with a "message" object that has a "content"
    field. *)
Definition has_first_choice_content (result : value) : bool :=
  match result with
  | VDict d =>
      match dict_get d "choices" with
      | Some (VList (VDict c :: _)) =>
          match dict_get c "message" with
          | Some (VDict m) =>
              match dict_get m "content" with
              | Some _ => true
              | None => false
              end
          | _ => false
          end
      | _ => false
      end
  | _ => false
  end.

(** [s] occurs in [t]. *)
Definition includes (t s : string) : Prop :=
  ∃ before after, t = before +:+ s +:+ after.

(** ** A small instance of the interface

    Used to run the handlers on concrete requests.  The reader accepts the
    files that start with the bytes of "%PDF" and yields their remainder as a
    single page; [json.loads] is tabulated on a handful of documents; the
    upstream is a parameter. *)

Definition demo_PdfReader (data : bytes) : lib_result (list string) :=
  match data with
  | [] => LibRaise PdfReadError "Cannot read an empty file"
  | x25 :: x50 :: x44 :: x46 :: rest => LibOk [string_of_list_byte rest]
  | _ => LibRaise PdfReadError "EOF marker not found"
  end.

Definition body_empty_object : string :=
  Eval vm_compute in with_double_quotes
  "{'choices': [{'message': {'content': '{}'}}]}".

Definition body_plain_text : string :=
  Eval vm_compute in with_double_quotes
  "{'choices': [{'message': {'content': 'no json here'}}]}".

Definition body_null_choices : string :=
  Eval vm_compute in with_double_quotes "{'choices': null}".

Definition demo_json_loads (s : string) : loads_failure * string + value :=
  if String.eqb s "{}" then inr (VDict [])
  else if String.eqb s "[]" then inr (VList [])
  else if String.eqb s "null" then inr VNone
  else if String.eqb s body_empty_object then
    inr (VDict [("choices",
                 VList [VDict [("message", VDict [("content", VStr "{}")])]])])
  else if String.eqb s body_plain_text then
    inr (VDict [("choices",
                 VList [VDict [("message",
                                VDict [("content", VStr "no json here")])]])])
  else if String.eqb s body_null_choices then inr (VDict [("choices", VNone)])
  else inl (Malformed, "Expecting value: line 1 column 1 (char 0)").

Definition demo_externals (upstream : Request → lib_result Response) : Externals :=
  {| Page := string;
     PdfReader := demo_PdfReader;
     extract_text := LibOk;
     json_loads := demo_json_loads;
     AsyncClient_post := upstream;
     mktemp_name := λ _ X, fresh X;
     mktemp_name_fresh := λ _ X, is_fresh X |}.

Definition empty_world : World := mkWorld ∅ [] [].

Definition pdf_upload (data : bytes) : UploadFile :=
  mkUploadFile (Some "cv.pdf") (Some "application/pdf") data.

(** The bytes of "%PDF" followed by "Ada". *)
Definition tiny_pdf : bytes := [x25; x50; x44; x46; x41; x64; x61].

(** The bytes of "hello": not a PDF. *)
Definition not_a_pdf : bytes := [x68; x65; x6c; x6c; x6f].

Definition text_upload : UploadFile :=
  mkUploadFile (Some "notes.txt") (Some "text/plain") not_a_pdf.

(** Upstreams: one that answers 404, three that answer 200 with the bodies
    above, one whose connection times out. *)
Definition upstream_404 (_ : Request) : lib_result Response :=
  LibOk (mkResponse 404 "model not found").

Definition upstream_json (_ : Request) : lib_result Response :=
  LibOk (mkResponse 200 body_empty_object).

Definition upstream_plain (_ : Request) : lib_result Response :=
  LibOk (mkResponse 200 body_plain_text).

Definition upstream_null_choices (_ : Request) : lib_result Response :=
  LibOk (mkResponse 200 body_null_choices).

Definition upstream_timeout (_ : Request) : lib_result Response :=
  LibRaise ReadTimeout "The read operation timed out".

(** ** Worlds along a call of [query_groq] *)

(** The two log records every call starts with. *)
Definition announced (is_resume : bool) (w : World) : World :=
  add_log INFO "Sending request to Groq API with model: llama3-70b-8192"
    (add_log INFO (if is_resume then "Processing resume text"
                   else "Processing job description text") w).

(** The world once the request has left. *)
Definition posted (text : string) (is_resume : bool) (w : World) : World :=
  add_sent (groq_request text is_resume) (announced is_resume w).

(** The classes a subscript can fail with. *)
Definition subscript_error (c : exc_class) : Prop :=
  c = KeyError ∨ c = IndexError ∨ c = TypeError.

(** [w'] differs from [w] by log records only. *)
Definition only_logged (w w' : World) : Prop :=
  fs w' = fs w ∧ sent w' = sent w.

(** ** Worlds along a call of [extract_text_from_pdf] *)

(** The text of lines 78-82 as a function of the pages. *)
Fixpoint pages_text `{Ext : Externals} (pages : list Page) (text : string)
    : lib_result string :=
  match pages with
  | [] => LibOk text
  | page :: rest => t ← extract_text page; pages_text rest (text +:+ t)
  end.

(** The path the temporary file gets in world [w]. *)
Definition temp_path_in `{Ext : Externals} (w : World) : string :=
  mktemp_name ".pdf" (dom (fs w)).

(** The world once the upload has been saved (lines 70-75). *)
Definition saved `{Ext : Externals} (u : UploadFile) (w : World) : World :=
  add_log INFO ("Saved uploaded PDF to temporary file: " +:+ temp_path_in w)
    (set_fs (insert (temp_path_in w) (file_bytes u)) w).

(** ** The log only grows *)

Definition log_extends (w w' : World) : Prop :=
  ∃ records, log w' = (log w ++ records)%list.

Definition keeps_log {A : Type} (m : M A) : Prop :=
  ∀ w, log_extends w (snd (m w)).

(** ** Whole requests and sequences of requests *)

(** The text PyPDF2 yields for an upload (lines 79-82), or its failure. *)
Definition pdf_text `{Ext : Externals} (u : UploadFile) : lib_result string :=
  pages ← PdfReader (file_bytes u); pages_text pages "".

(** The texts of a list in order, joined without separator. *)
Definition join_texts (texts : list string) : string :=
  foldr String.append "" texts.

(** The world once extraction has succeeded with [text] (lines 84-87). *)
Definition extracted `{Ext : Externals} (u : UploadFile) (text : string)
    (w : World) : World :=
  add_log INFO ("Extracted " +:+ pretty (String.length text)
                +:+ " characters from PDF")
    (set_fs (delete (temp_path_in w)) (saved u w)).

(** The requests the server handles one after the other. *)
Fixpoint handle_all `{Ext : Externals} (rs : list ApiRequest) (w : World) : World :=
  match rs with
  | [] => w
  | r :: rest => handle_all rest (snd (app r w))
  end.

(** The request is a resume labelled PDF whose extraction fails. *)
Definition fails_extraction `{Ext : Externals} (r : ApiRequest) : bool :=
  match r with
  | POST_parse_resume u =>
      bool_decide (content_type u = Some "application/pdf")
      && match pdf_text u with LibOk _ => false | LibRaise _ _ => true end
  | _ => false
  end.

(** The request gets as far as the completion client. *)
Definition reaches_upstream `{Ext : Externals} (r : ApiRequest) : bool :=
  match r with
  | POST_parse_resume u =>
      bool_decide (content_type u = Some "application/pdf")
      && match pdf_text u with LibOk _ => true | LibRaise _ _ => false end
  | POST_parse_job_description s => str_truthy s
  | GET_health => false
  end.

(** ** A second instance: one page per byte

    The reader accepts the files that start with "%PDF" and makes one page
    of each byte that follows; the page of a zero byte cannot be decoded.
    [json.loads] and the upstream are parameters. *)

Definition paged_PdfReader (data : bytes) : lib_result (list byte) :=
  match data with
  | x25 :: x50 :: x44 :: x46 :: rest => LibOk rest
  | _ => LibRaise PdfReadError "EOF marker not found"
  end.

Definition paged_extract_text (b : byte) : lib_result string :=
  match b with
  | x00 => LibRaise OtherException "unsupported encoding"
  | _ => LibOk (string_of_list_byte [b])
  end.

Definition paged_externals (loads : string → loads_failure * string + value)
    (upstream : Request → lib_result Response) : Externals :=
  {| Page := byte;
     PdfReader := paged_PdfReader;
     extract_text := paged_extract_text;
     json_loads := loads;
     AsyncClient_post := upstream;
     mktemp_name := λ _ X, fresh X;
     mktemp_name_fresh := λ _ X, is_fresh X |}.

(** The bytes of "%PDF", then "A", a zero byte, "a". *)
Definition damaged_pdf : bytes := [x25; x50; x44; x46; x41; x00; x61].

Definition body_null_content : string :=
  Eval vm_compute in with_double_quotes
  "{'choices': [{'message': {'content': null}}]}".

(** [demo_json_loads] extended with one more document. *)
Definition wider_json_loads (s : string) : loads_failure * string + value :=
  if String.eqb s body_null_content then
    inr (VDict [("choices",
                 VList [VDict [("message", VDict [("content", VNone)])]])])
  else demo_json_loads s.

Definition upstream_null_content (_ : Request) : lib_result Response :=
  LibOk (mkResponse 200 body_null_content).

Definition upstream_html (_ : Request) : lib_result Response :=
  LibOk (mkResponse 200 "<html>Bad gateway</html>").

Definition upstream_created (_ : Request) : lib_result Response :=
  LibOk (mkResponse 201 body_empty_object).

Definition upstream_bad_request (_ : Request) : lib_result Response :=
  LibOk (mkResponse 400 "invalid model").

Definition upstream_broken (_ : Request) : lib_result Response :=
  LibRaise RuntimeError "Event loop is closed".








(** * Properties *)

(** ** The prompts *)

(** The two literals have the lengths they have in the source, trailing
    blanks included, and differ. *)
Lemma system_prompts_length :
  String.length RESUME_SYSTEM_PROMPT = 1597%nat
  ∧ String.length JOB_SYSTEM_PROMPT = 1141%nat
  ∧ RESUME_SYSTEM_PROMPT ≠ JOB_SYSTEM_PROMPT.
Proof.
  split; [vm_compute; reflexivity|]. split; [vm_compute; reflexivity|].
  intros Heq. apply (f_equal String.length) in Heq. vm_compute in Heq.
  discriminate.
Qed.

(** ** Health probe *)

Lemma health_check_run (w : World) :
  health_check w =
  (Return (VDict [("status", VStr "healthy"); ("version", VStr "1.0.0")]),
   add_log INFO "Health check request received" w).
Proof. reflexivity. Qed.

(** C7. For every state of the world and every behaviour of the libraries and
    of the upstream, the health route answers status 200 with exactly the
    payload [{"status": "healthy", "version": "1.0.0"}]; it leaves the file
    system untouched and posts nothing: its only trace is one INFO record in
    the log, which no handler ever reads. *)
Theorem health_probe_static `{Ext : Externals} (w : World) :
  serve GET_health w =
    (Some (mkHttpResponse 200
             (JSONBody (VDict [("status", VStr "healthy");
                               ("version", VStr "1.0.0")]))),
     add_log INFO "Health check request received" w)
  ∧ fs (snd (serve GET_health w)) = fs w
  ∧ sent (snd (serve GET_health w)) = sent w.
Proof. unfold serve, app. rewrite health_check_run. repeat split. Qed.

(** ** Module start-up *)

(** C8. Whatever the environment of the process holds, and in particular
    when it holds no credential at all, importing the module succeeds with
    the key written in the source: the credential is not read from the
    configuration and the start-up check cannot fail. *)
Theorem module_init_ignores_environment (environ : gmap string string) :
  module_init environ =
    Return "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"
  ∧ module_init environ = module_init ∅
  ∧ headers !! 0%nat = Some ("Authorization", "Bearer " +:+ GROQ_API_KEY).
Proof. repeat split. Qed.

(** ** Resume endpoint: the content-type check *)

Lemma content_type_check_false (u : UploadFile) :
  content_type u ≠ Some "application/pdf" →
  negb (bool_decide (content_type u = Some "application/pdf")) = true.
Proof. intros Hne. by rewrite bool_decide_eq_false_2. Qed.

Lemma content_type_check_true (u : UploadFile) :
  content_type u = Some "application/pdf" →
  negb (bool_decide (content_type u = Some "application/pdf")) = false.
Proof. intros Heq. by rewrite bool_decide_eq_true_2. Qed.

Lemma parse_resume_rejected_run `{Ext : Externals} (u : UploadFile) (w : World) :
  content_type u ≠ Some "application/pdf" →
  parse_resume u w =
    (Raise (HTTPException 400 "Only PDF files are supported"),
     add_log ERROR ("Invalid file type: " +:+ str_optional (content_type u))
       (add_log INFO ("Received resume parsing request: "
                      +:+ str_optional (filename u)) w)).
Proof.
  intros Hne. unfold parse_resume, mbind, M_bind, logger_info. simpl.
  rewrite (content_type_check_false u Hne). reflexivity.
Qed.

Lemma parse_resume_accepted_run `{Ext : Externals} (u : UploadFile) (w : World) :
  content_type u = Some "application/pdf" →
  parse_resume u w =
    parse_resume_accepted u
      (add_log INFO ("Received resume parsing request: "
                     +:+ str_optional (filename u)) w).
Proof.
  intros Heq. unfold parse_resume, mbind, M_bind, logger_info. simpl.
  rewrite (content_type_check_true u Heq). reflexivity.
Qed.

(** C4. An upload whose declared content type is not [application/pdf] is
    answered with the 400 error "Only PDF files are supported"; no temporary
    file is written (the file system is unchanged) and no request is posted
    to the completion endpoint: the handler only logs two records. *)
Theorem parse_resume_rejects_non_pdf `{Ext : Externals} (u : UploadFile) (w : World) :
  content_type u ≠ Some "application/pdf" →
  ∃ w',
    parse_resume u w = (Raise (HTTPException 400 "Only PDF files are supported"), w')
    ∧ fst (serve (POST_parse_resume u) w) =
        Some (mkHttpResponse 400
                (JSONBody (VDict [("detail", VStr "Only PDF files are supported")])))
    ∧ fs w' = fs w
    ∧ sent w' = sent w
    ∧ log w' = (log w ++
        [(INFO, "Received resume parsing request: " +:+ str_optional (filename u));
         (ERROR, "Invalid file type: " +:+ str_optional (content_type u))])%list.
Proof.
  intros Hne. eexists. split; [apply (parse_resume_rejected_run u w Hne)|].
  unfold serve, app. rewrite (parse_resume_rejected_run u w Hne). simpl.
  repeat split. by rewrite <- app_assoc.
Qed.

Lemma parse_resume_rejects_non_pdf_witness :
  content_type text_upload ≠ Some "application/pdf"
  ∧ ∃ w',
    @parse_resume (demo_externals upstream_json) text_upload empty_world =
      (Raise (HTTPException 400 "Only PDF files are supported"), w')
    ∧ fs w' = fs empty_world
    ∧ sent w' = sent empty_world.
Proof.
  assert (Hne : content_type text_upload ≠ Some "application/pdf")
    by (simpl; discriminate).
  split; [exact Hne|].
  destruct (@parse_resume_rejects_non_pdf (demo_externals upstream_json)
              text_upload empty_world Hne) as (w' & Hrun & _ & Hfs & Hsent & _).
  exists w'. auto.
Defined.

(** ** Completion client: how a call runs *)

Section QueryGroq.

Context `{Ext : Externals}.

Lemma coerce_run (x : value) (w : World) :
  coerce x w =
    match x with
    | VStr s =>
        match json_loads s with
        | inr v => (Return v, add_log INFO "Successfully parsed JSON response" w)
        | inl (Malformed, m) =>
            (Return (VStr s),
             add_log INFO "Returning unparsed Groq API response"
               (add_log WARNING ("JSON parsing error: " +:+ m) w))
        | inl (k, m) => (Raise (PyError (loads_failure_class k) m), w)
        end
    | _ => (Raise (PyError TypeError
                     ("the JSON object must be str, bytes or bytearray, not "
                      +:+ type_name x)), w)
    end.
Proof.
  unfold coerce, try_except, mbind, M_bind.
  destruct x; try reflexivity.
  simpl. unfold json_loads_str.
  destruct (json_loads s) as [[[] m]|v]; reflexivity.
Qed.

Lemma coerce_response_run (response : Response) (w : World) :
  coerce_response response w =
    match json_loads (text response) with
    | inl (k, m) => (Raise (PyError (loads_failure_class k) m), w)
    | inr result =>
        match first_choice_content result with
        | LibRaise c m => (Raise (PyError c m), w)
        | LibOk x =>
            coerce x (add_log INFO "Successfully received response from Groq API" w)
        end
    end.
Proof.
  unfold coerce_response, response_json, json_loads_str, mbind at 1 2, M_bind.
  destruct (json_loads (text response)) as [[k m]|result]; [reflexivity|].
  simpl. destruct (first_choice_content result); reflexivity.
Qed.

Lemma query_groq_run (text : string) (is_resume : bool) (w : World) :
  query_groq text is_resume w =
    match AsyncClient_post (groq_request text is_resume) with
    | LibRaise c m =>
        if is_RequestError c
        then (Raise (HTTPException 500 ("Error communicating with Groq API: " +:+ m)),
              add_log ERROR ("Error communicating with Groq API: " +:+ m)
                (posted text is_resume w))
        else (Raise (PyError c m), posted text is_resume w)
    | LibOk response =>
        try_except
          (if negb (status_code response =? 200)%Z
           then upstream_error response
           else coerce_response response)
          except_RequestError
          (λ e,
           _ ← logger_error ("Error communicating with Groq API: " +:+ str_exn e);
           raise (HTTPException 500
                    ("Error communicating with Groq API: " +:+ str_exn e)))
          (posted text is_resume w)
    end.
Proof.
  unfold query_groq, posted, announced, groq_request, system_prompt_of.
  destruct is_resume; simpl;
    unfold try_except, mbind, M_bind, client_post; simpl;
    match goal with |- context [AsyncClient_post ?r] =>
      destruct (AsyncClient_post r) as [response|c m] end;
    simpl; try reflexivity;
    destruct (is_RequestError c); reflexivity.
Qed.

Lemma getitem_raises (v : value) (k : key) (c : exc_class) (m : string) :
  getitem v k = LibRaise c m → subscript_error c.
Proof.
  unfold getitem, subscript_error.
  destruct v, k; repeat case_match; intros [=]; subst; auto.
Qed.

Lemma first_choice_content_raises (result : value) (c : exc_class) (m : string) :
  first_choice_content result = LibRaise c m → subscript_error c.
Proof.
  unfold first_choice_content, mbind, lib_result_bind.
  destruct (getitem result (KStr "choices")) as [choices|c1 m1] eqn:H1;
    [|intros [= <- <-]; eauto using getitem_raises].
  destruct (getitem choices (KInt 0)) as [choice|c2 m2] eqn:H2;
    [|intros [= <- <-]; eauto using getitem_raises].
  destruct (getitem choice (KStr "message")) as [message|c3 m3] eqn:H3;
    [|intros [= <- <-]; eauto using getitem_raises].
  apply getitem_raises.
Qed.

Lemma subscript_error_not_RequestError (c : exc_class) :
  subscript_error c → is_RequestError c = false.
Proof. by intros [-> | [-> | ->]]. Qed.

Lemma loads_failure_not_RequestError (k : loads_failure) :
  is_RequestError (loads_failure_class k) = false.
Proof. by destruct k. Qed.

(** A response is handled by the branch its status selects; nothing either
    branch raises is caught by [except httpx.RequestError]. *)
Lemma query_groq_answered (doc : string) (is_resume : bool) (w : World)
    (response : Response) :
  AsyncClient_post (groq_request doc is_resume) = LibOk response →
  query_groq doc is_resume w =
    (if negb (status_code response =? 200)%Z
     then upstream_error response
     else coerce_response response) (posted doc is_resume w).
Proof.
  intros Hpost. rewrite query_groq_run, Hpost. unfold try_except.
  destruct (negb (status_code response =? 200)%Z); [reflexivity|].
  rewrite coerce_response_run.
  destruct (json_loads (text response)) as [[k m]|result].
  { simpl. by rewrite loads_failure_not_RequestError. }
  destruct (first_choice_content result) as [x|c m] eqn:Hc.
  - rewrite coerce_run. destruct x; try reflexivity.
    destruct (json_loads s) as [[[] m]|v]; reflexivity.
  - simpl. apply first_choice_content_raises in Hc.
    by rewrite (subscript_error_not_RequestError c Hc).
Qed.

Lemma append_empty (s : string) : s +:+ "" = s.
Proof.
  induction s as [|a s IH]; [reflexivity|].
  change (String a (s +:+ "") = String a s). by rewrite IH.
Qed.

Lemma upstream_error_run (response : Response) (w : World) :
  upstream_error response w =
    (Raise (HTTPException (status_code response)
              ("Groq API Error: " +:+ text response)),
     add_log ERROR ("Groq API Error: " +:+ pretty (status_code response)
                    +:+ " - " +:+ text response) w).
Proof. reflexivity. Qed.

Lemma coerce_only_logged (x : value) (w : World) :
  only_logged w (snd (coerce x w)).
Proof.
  rewrite coerce_run. destruct x; try (by split).
  destruct (json_loads s) as [[[] m]|v]; by split.
Qed.

Lemma coerce_response_only_logged (response : Response) (w : World) :
  only_logged w (snd (coerce_response response w)).
Proof.
  rewrite coerce_response_run.
  destruct (json_loads (text response)) as [[k m]|v]; [by split|].
  destruct (first_choice_content v); [|by split].
  destruct (coerce_only_logged a
              (add_log INFO "Successfully received response from Groq API" w))
    as [Hfs Hsent].
  split; [by rewrite Hfs | by rewrite Hsent].
Qed.

(** Every call posts exactly one request and writes no file. *)
Lemma query_groq_world (doc : string) (is_resume : bool) (w : World) :
  fs (snd (query_groq doc is_resume w)) = fs w
  ∧ sent (snd (query_groq doc is_resume w))
    = (sent w ++ [groq_request doc is_resume])%list.
Proof.
  destruct (AsyncClient_post (groq_request doc is_resume)) as [response|c m] eqn:Hpost.
  - rewrite (query_groq_answered doc is_resume w response Hpost).
    destruct (negb (status_code response =? 200)%Z).
    + rewrite upstream_error_run. by split.
    + destruct (coerce_response_only_logged response (posted doc is_resume w))
        as [Hfs Hsent].
      split; [by rewrite Hfs | by rewrite Hsent].
  - rewrite query_groq_run, Hpost. destruct (is_RequestError c); by split.
Qed.

(** C6. For every document and flag, a call of [query_groq] posts exactly one
    request, in one attempt: to the completion URL, with a 60-second timeout,
    and a body made of the model identifier, exactly two messages (the system
    prompt selected by the flag, then the document as user message), the
    temperature 0.2 and the directive for JSON output. *)
Theorem query_groq_request_shape (doc : string) (is_resume : bool) (w : World) :
  sent (snd (query_groq doc is_resume w)) =
    (sent w ++
     [mkRequest "https://api.groq.com/openai/v1/chat/completions"
        (VDict [("model", VStr "llama3-70b-8192");
                ("messages",
                 VList [VDict [("role", VStr "system");
                               ("content",
                                VStr (if is_resume then RESUME_SYSTEM_PROMPT
                                      else JOB_SYSTEM_PROMPT))];
                        VDict [("role", VStr "user"); ("content", VStr doc)]]);
                ("temperature", VFloat 0.2%Q);
                ("response_format", VDict [("type", VStr "json_object")])])
        headers
        60.0%Q])%list.
Proof. apply query_groq_world. Qed.

(** C1 (as the code has it). When the completion endpoint answers with a
    status outside 200-299, [query_groq] fails with an [HTTPException] whose
    status is the upstream's own status code, and whose detail is
    "Groq API Error: " followed by the upstream body; the failure passes
    through [except httpx.RequestError] untouched. *)
Theorem query_groq_upstream_error (doc : string) (is_resume : bool) (w : World)
    (response : Response) :
  AsyncClient_post (groq_request doc is_resume) = LibOk response →
  ¬ (200 ≤ status_code response < 300)%Z →
  ∃ w',
    query_groq doc is_resume w =
      (Raise (HTTPException (status_code response)
                ("Groq API Error: " +:+ text response)), w')
    ∧ includes ("Groq API Error: " +:+ text response) (text response).
Proof.
  intros Hpost Hstatus.
  rewrite (query_groq_answered doc is_resume w response Hpost).
  assert (Hne : negb (status_code response =? 200)%Z = true).
  { apply negb_true_iff, Z.eqb_neq. lia. }
  rewrite Hne, upstream_error_run. eexists. split; [reflexivity|].
  exists "Groq API Error: ", "". by rewrite append_empty.
Qed.

(** C5. When the post fails at the transport level (an exception of a
    subclass of [httpx.RequestError]: DNS or connection failure, timeout),
    [query_groq] fails with an [HTTPException] of status 500 whose detail is
    "Error communicating with Groq API: " followed by the text of the
    exception; no error of the upstream-status case has this detail. *)
Theorem query_groq_network_error (doc : string) (is_resume : bool) (w : World)
    (c : exc_class) (m : string) :
  AsyncClient_post (groq_request doc is_resume) = LibRaise c m →
  is_RequestError c = true →
  ∃ w',
    query_groq doc is_resume w =
      (Raise (HTTPException 500 ("Error communicating with Groq API: " +:+ m)), w')
    ∧ ∀ (status : Z) (body : string),
        HTTPException 500 ("Error communicating with Groq API: " +:+ m)
        ≠ HTTPException status ("Groq API Error: " +:+ body).
Proof.
  intros Hpost Hc. rewrite query_groq_run, Hpost, Hc.
  eexists. split; [reflexivity|]. intros status body. simpl. discriminate.
Qed.

Lemma query_groq_status_200 (doc : string) (is_resume : bool) (w : World)
    (response : Response) :
  AsyncClient_post (groq_request doc is_resume) = LibOk response →
  status_code response = 200 →
  query_groq doc is_resume w = coerce_response response (posted doc is_resume w).
Proof.
  intros Hpost Hstatus.
  rewrite (query_groq_answered doc is_resume w response Hpost).
  by rewrite Hstatus.
Qed.

(** *** The response coercer *)

Lemma coerce_passthrough (s : string) (w : World) :
  fst (coerce (VStr s) w) =
    match json_loads s with
    | inr v => Return v
    | inl (Malformed, _) => Return (VStr s)
    | inl (k, m) => Raise (PyError (loads_failure_class k) m)
    end.
Proof. rewrite coerce_run. by destruct (json_loads s) as [[[] m]|v]. Qed.


(** *** A 200 response of the wrong shape *)

Lemma first_choice_content_ok (result x : value) :
  first_choice_content result = LibOk x →
  has_first_choice_content result = true.
Proof.
  unfold first_choice_content, has_first_choice_content, mbind, lib_result_bind.
  destruct result as [| | | | |?|d]; try discriminate. simpl.
  destruct (dict_get d "choices") as [choices|]; [|discriminate].
  destruct choices as [| | | |s|l|?]; try discriminate.
  - simpl. destruct (norm_index 0 (String.length s) ≫= (λ n, get n s));
      discriminate.
  - destruct l as [|choice l]; [discriminate|].
    assert (Hfirst : getitem (VList (choice :: l)) (KInt 0) = LibOk choice).
    { unfold getitem, norm_index. simpl length.
      replace ((0 <=? 0)%Z && (0 <? Z.of_nat (S (length l)))%Z) with true
        by (symmetry; apply andb_true_iff; split; [done|apply Z.ltb_lt; lia]).
      reflexivity. }
    rewrite Hfirst.
    destruct choice as [| | | | |?|c]; try discriminate. simpl.
    destruct (dict_get c "message") as [message|]; [|discriminate].
    destruct message as [| | | | |?|m]; try discriminate. simpl.
    destruct (dict_get m "content"); [done|discriminate].
Qed.

Lemma first_choice_content_missing (result : value) :
  has_first_choice_content result = false →
  ∃ c m, first_choice_content result = LibRaise c m ∧ subscript_error c.
Proof.
  intros Hshape.
  destruct (first_choice_content result) as [x|c m] eqn:Hc.
  - apply first_choice_content_ok in Hc. congruence.
  - exists c, m. split; [reflexivity|]. by apply first_choice_content_raises in Hc.
Qed.

(** C9 (as the code has it). When the completion endpoint answers 200 with a
    body that parses as JSON but is not an object with a non-empty "choices"
    list whose first element has a "message" object with a "content" field,
    the subscripts of line 209 raise a [KeyError], an [IndexError] or a
    [TypeError]; [query_groq] lets it escape as it is, not as an
    [HTTPException], and the framework answers a bare 500. *)
Theorem query_groq_missing_content_uncaught (doc : string) (is_resume : bool)
    (w : World) (response : Response) (result : value) :
  AsyncClient_post (groq_request doc is_resume) = LibOk response →
  status_code response = 200 →
  json_loads (text response) = inr result →
  has_first_choice_content result = false →
  ∃ c m w',
    query_groq doc is_resume w = (Raise (PyError c m), w')
    ∧ (c = KeyError ∨ c = IndexError ∨ c = TypeError)
    ∧ error_response (PyError c m) =
        mkHttpResponse 500 (TextBody "Internal Server Error").
Proof.
  intros Hpost Hstatus Hbody Hshape.
  destruct (first_choice_content_missing result Hshape) as (c & m & Hc & Hcls).
  exists c, m. eexists.
  rewrite (query_groq_status_200 doc is_resume w response Hpost Hstatus).
  rewrite coerce_response_run, Hbody, Hc.
  split; [reflexivity|]. split; [exact Hcls|].
  by destruct Hcls as [-> | [-> | ->]].
Qed.

End QueryGroq.

(** *** The completion client on concrete upstreams *)

(** C1, as stated, fails: an upstream 404 comes back as a 404, not as a 500. *)
Lemma query_groq_forwards_upstream_404 :
  ¬ (200 ≤ status_code (mkResponse 404 "model not found") < 300)%Z
  ∧ upstream_404 (groq_request "cv" true) = LibOk (mkResponse 404 "model not found")
  ∧ fst (@query_groq (demo_externals upstream_404) "cv" true empty_world)
    = Raise (HTTPException 404 "Groq API Error: model not found")
  ∧ ∀ detail,
      fst (@query_groq (demo_externals upstream_404) "cv" true empty_world)
      ≠ Raise (HTTPException 500 detail).
Proof.
  split; [simpl; lia|]. split; [reflexivity|].
  assert (Hrun : fst (@query_groq (demo_externals upstream_404) "cv" true empty_world)
                 = Raise (HTTPException 404 "Groq API Error: model not found"))
    by (vm_compute; reflexivity).
  split; [exact Hrun|]. intros detail. rewrite Hrun. discriminate.
Qed.

Lemma query_groq_upstream_error_witness :
  AsyncClient_post (Externals := demo_externals upstream_404) (groq_request "cv" true)
    = LibOk (mkResponse 404 "model not found")
  ∧ ¬ (200 ≤ 404 < 300)%Z
  ∧ ∃ w',
      @query_groq (demo_externals upstream_404) "cv" true empty_world =
        (Raise (HTTPException 404 ("Groq API Error: " +:+ "model not found")), w')
      ∧ includes ("Groq API Error: " +:+ "model not found") "model not found".
Proof.
  split; [reflexivity|]. split; [lia|].
  apply (@query_groq_upstream_error (demo_externals upstream_404) "cv" true
           empty_world (mkResponse 404 "model not found")).
  - reflexivity.
  - simpl. lia.
Defined.

Lemma query_groq_network_error_witness :
  AsyncClient_post (Externals := demo_externals upstream_timeout)
    (groq_request "cv" false)
    = LibRaise ReadTimeout "The read operation timed out"
  ∧ is_RequestError ReadTimeout = true
  ∧ ∃ w',
      @query_groq (demo_externals upstream_timeout) "cv" false empty_world =
        (Raise (HTTPException 500
                  ("Error communicating with Groq API: "
                   +:+ "The read operation timed out")), w')
      ∧ ∀ (status : Z) (body : string),
          HTTPException 500 ("Error communicating with Groq API: "
                             +:+ "The read operation timed out")
          ≠ HTTPException status ("Groq API Error: " +:+ body).
Proof.
  split; [reflexivity|]. split; [reflexivity|].
  apply (@query_groq_network_error (demo_externals upstream_timeout) "cv" false
           empty_world ReadTimeout "The read operation timed out");
    reflexivity.
Defined.



(** Both branches of the law, run: a JSON content comes back parsed, a
    malformed content comes back as it was. *)
Lemma query_groq_passthrough_runs :
  fst (@query_groq (demo_externals upstream_json) "cv" true empty_world)
    = Return (VDict [])
  ∧ fst (@query_groq (demo_externals upstream_plain) "cv" true empty_world)
    = Return (VStr "no json here").
Proof. split; vm_compute; reflexivity. Qed.

(** C9, as stated, fails on the class of the exception: a body whose
    "choices" is [null] lacks the content, and the subscript raises a
    [TypeError]. *)
Lemma query_groq_null_choices_type_error :
  demo_json_loads body_null_choices = inr (VDict [("choices", VNone)])
  ∧ has_first_choice_content (VDict [("choices", VNone)]) = false
  ∧ fst (@query_groq (demo_externals upstream_null_choices) "cv" true empty_world)
    = Raise (PyError TypeError "'NoneType' object is not subscriptable")
  ∧ TypeError ≠ KeyError
  ∧ TypeError ≠ IndexError.
Proof.
  split; [reflexivity|]. split; [reflexivity|].
  split; [vm_compute; reflexivity|]. split; discriminate.
Qed.

Lemma query_groq_missing_content_uncaught_witness :
  has_first_choice_content (VDict []) = false
  ∧ ∃ c m w',
      @query_groq (demo_externals (λ _, LibOk (mkResponse 200 "{}")))
        "cv" true empty_world = (Raise (PyError c m), w')
      ∧ (c = KeyError ∨ c = IndexError ∨ c = TypeError)
      ∧ error_response (PyError c m) =
          mkHttpResponse 500 (TextBody "Internal Server Error").
Proof.
  split; [reflexivity|].
  apply (@query_groq_missing_content_uncaught
           (demo_externals (λ _, LibOk (mkResponse 200 "{}")))
           "cv" true empty_world (mkResponse 200 "{}") (VDict []));
    reflexivity.
Defined.

(** ** Text extractor *)

Section Extractor.

Context `{Ext : Externals}.

Lemma temp_path_fresh (w : World) : fs w !! temp_path_in w = None.
Proof. apply not_elem_of_dom, mktemp_name_fresh. Qed.

Lemma saved_lookup (u : UploadFile) (w : World) :
  fs (saved u w) !! temp_path_in w = Some (file_bytes u).
Proof. unfold saved. simpl. apply lookup_insert_eq. Qed.

Lemma extract_pages_run (pages : list Page) (text : string) (w : World) :
  extract_pages pages text w = lift_lib (pages_text pages text) w.
Proof.
  revert text. induction pages as [|page rest IH]; intros text; [reflexivity|].
  simpl. unfold mbind at 1, M_bind.
  destruct (extract_text page) as [t|c m]; simpl; [apply IH|reflexivity].
Qed.

Lemma extract_text_from_pdf_run (u : UploadFile) (w : World) :
  extract_text_from_pdf u w =
    match pages ← PdfReader (file_bytes u); pages_text pages "" with
    | LibOk text =>
        (Return text,
         add_log INFO ("Extracted " +:+ pretty (String.length text)
                       +:+ " characters from PDF")
           (set_fs (delete (temp_path_in w)) (saved u w)))
    | LibRaise c m =>
        (Raise (HTTPException 500 ("Error extracting text from PDF: " +:+ m)),
         add_log ERROR ("Error extracting text from PDF: " +:+ m) (saved u w))
    end.
Proof.
  unfold extract_text_from_pdf, try_except.
  unfold mbind at 1, M_bind, NamedTemporaryFile_write.
  unfold mbind at 1, M_bind, logger_info.
  fold (temp_path_in w). fold (saved u w).
  unfold mbind at 1, M_bind, open_rb. rewrite saved_lookup.
  unfold mbind at 1, M_bind.
  destruct (PdfReader (file_bytes u)) as [pages|c m]; [|reflexivity].
  change (LibOk pages ≫= λ pages0, pages_text pages0 "")
    with (pages_text pages "").
  simpl lift_lib. unfold mret at 1, M_ret. cbv beta iota.
  unfold mbind at 1, M_bind. rewrite extract_pages_run.
  destruct (pages_text pages "") as [text|c m]; [|reflexivity].
  simpl lift_lib. unfold mret at 1, M_ret. cbv beta iota.
  unfold mbind at 1, M_bind, os_unlink. rewrite saved_lookup. reflexivity.
Qed.

(** On the path where every page yields its text, the temporary file is
    unlinked and the file system is what it was. *)
Lemma extract_text_from_pdf_cleans_on_success (u : UploadFile) (w : World)
    (text : string) :
  (pages ← PdfReader (file_bytes u); pages_text pages "") = LibOk text →
  ∃ w',
    extract_text_from_pdf u w = (Return text, w')
    ∧ fs w' = fs w.
Proof.
  intros Hok. rewrite extract_text_from_pdf_run, Hok.
  eexists. split; [reflexivity|]. simpl.
  apply delete_insert_id, temp_path_fresh.
Qed.

Lemma extract_text_from_pdf_failed_run (u : UploadFile) (w : World)
    (c : exc_class) (m : string) :
  (pages ← PdfReader (file_bytes u); pages_text pages "") = LibRaise c m →
  extract_text_from_pdf u w =
    (Raise (HTTPException 500 ("Error extracting text from PDF: " +:+ m)),
     add_log ERROR ("Error extracting text from PDF: " +:+ m) (saved u w)).
Proof. intros Hfail. by rewrite extract_text_from_pdf_run, Hfail. Qed.

(** C2 (what the code does on the failing path). When the payload cannot be
    parsed as a PDF, [extract_text_from_pdf] raises its 500 error and the
    temporary file, which did not exist before the call, is still in the
    file system with the payload in it: [os.unlink] is reached on the
    successful path only. *)
Theorem extract_text_from_pdf_leaks_on_error (u : UploadFile) (w : World)
    (c : exc_class) (m : string) :
  PdfReader (file_bytes u) = LibRaise c m →
  ∃ w',
    extract_text_from_pdf u w =
      (Raise (HTTPException 500 ("Error extracting text from PDF: " +:+ m)), w')
    ∧ fs w !! temp_path_in w = None
    ∧ fs w' = <[temp_path_in w := file_bytes u]> (fs w)
    ∧ fs w' !! temp_path_in w = Some (file_bytes u)
    ∧ size (fs w') = S (size (fs w)).
Proof.
  intros Hread.
  assert (Hfail : (pages ← PdfReader (file_bytes u); pages_text pages "")
                  = LibRaise c m) by (by rewrite Hread).
  rewrite (extract_text_from_pdf_failed_run u w c m Hfail).
  eexists. split; [reflexivity|]. simpl.
  split; [apply temp_path_fresh|]. split; [reflexivity|].
  split; [apply lookup_insert_eq|].
  apply map_size_insert_None, temp_path_fresh.
Qed.

End Extractor.

Lemma extract_text_from_pdf_leaks_on_error_witness :
  PdfReader (Externals := demo_externals upstream_json)
    (file_bytes (pdf_upload not_a_pdf))
    = LibRaise PdfReadError "EOF marker not found"
  ∧ ∃ w',
    @extract_text_from_pdf (demo_externals upstream_json)
      (pdf_upload not_a_pdf) empty_world =
      (Raise (HTTPException 500
                ("Error extracting text from PDF: " +:+ "EOF marker not found")),
       w')
    ∧ fs w' !! "0" = Some not_a_pdf.
Proof.
  split; [reflexivity|].
  destruct (@extract_text_from_pdf_leaks_on_error (demo_externals upstream_json)
              (pdf_upload not_a_pdf) empty_world PdfReadError
              "EOF marker not found" eq_refl)
    as (w' & Hrun & _ & _ & Hfile & _).
  exists w'. split; [exact Hrun|exact Hfile].
Defined.

(** The same two uploads, run: the PDF leaves the file system empty, the
    other payload leaves its temporary file behind. *)
Lemma extract_text_from_pdf_runs :
  (let r := @extract_text_from_pdf (demo_externals upstream_json)
              (pdf_upload tiny_pdf) empty_world in
   fst r = Return "Ada" ∧ map_to_list (fs (snd r)) = [])
  ∧
  (let r := @extract_text_from_pdf (demo_externals upstream_json)
              (pdf_upload not_a_pdf) empty_world in
   fst r = Raise (HTTPException 500
                    "Error extracting text from PDF: EOF marker not found")
   ∧ map_to_list (fs (snd r)) = [("0", not_a_pdf)]).
Proof. repeat split; vm_compute; reflexivity. Qed.

(** ** The log only grows *)

Lemma log_extends_refl (w : World) : log_extends w w.
Proof. exists []. by rewrite app_nil_r. Qed.

Lemma log_extends_trans (w1 w2 w3 : World) :
  log_extends w1 w2 → log_extends w2 w3 → log_extends w1 w3.
Proof.
  intros [l1 H1] [l2 H2]. exists (l1 ++ l2)%list.
  by rewrite H2, H1, <- app_assoc.
Qed.

Lemma log_extends_elem (w w' : World) (r : level * string) :
  log_extends w w' → r ∈ log w → r ∈ log w'.
Proof. intros [l ->] Hin. apply elem_of_app. by left. Qed.

Lemma keeps_log_ret {A : Type} (a : A) : keeps_log (mret a).
Proof. intros w. apply log_extends_refl. Qed.

Lemma keeps_log_raise {A : Type} (e : exn) : keeps_log (@raise A e).
Proof. intros w. apply log_extends_refl. Qed.

Lemma keeps_log_bind {A B : Type} (m : M A) (k : A → M B) :
  keeps_log m → (∀ a, keeps_log (k a)) → keeps_log (m ≫= k).
Proof.
  intros Hm Hk w. unfold mbind, M_bind.
  specialize (Hm w). destruct (m w) as [[a|e] w1]; simpl in *; [|done].
  eapply log_extends_trans; [exact Hm|apply Hk].
Qed.

Lemma keeps_log_try_except {A : Type} (body : M A) (handles : exn → bool)
    (handler : exn → M A) :
  keeps_log body → (∀ e, keeps_log (handler e)) →
  keeps_log (try_except body handles handler).
Proof.
  intros Hb Hh w. unfold try_except.
  specialize (Hb w). destruct (body w) as [[a|e] w1]; simpl in *; [done|].
  destruct (handles e); [|done].
  eapply log_extends_trans; [exact Hb|apply Hh].
Qed.

Lemma keeps_log_logger (l : level) (m : string) :
  keeps_log (λ w, (Return tt, add_log l m w)).
Proof. intros w. by exists [(l, m)]. Qed.

Lemma keeps_log_lift_lib {A : Type} (r : lib_result A) : keeps_log (lift_lib r).
Proof. destruct r; [apply keeps_log_ret|apply keeps_log_raise]. Qed.

Lemma keeps_log_client_post `{Ext : Externals} (t : Q) (url : string)
    (body : value) (hs : list (string * string)) :
  keeps_log (client_post t url body hs).
Proof.
  intros w. unfold client_post.
  destruct (AsyncClient_post _); exists []; simpl; by rewrite app_nil_r.
Qed.

Lemma keeps_log_json_loads_str `{Ext : Externals} (s : string) :
  keeps_log (json_loads_str s).
Proof.
  unfold json_loads_str.
  destruct (json_loads s) as [[k m]|v]; [apply keeps_log_raise|apply keeps_log_ret].
Qed.

Create HintDb keeps_log.

#[local] Hint Resolve keeps_log_ret keeps_log_raise keeps_log_lift_lib
  keeps_log_client_post keeps_log_json_loads_str : keeps_log.
#[local] Hint Extern 1 (keeps_log (logger_info _)) =>
  apply keeps_log_logger : keeps_log.
#[local] Hint Extern 1 (keeps_log (logger_warning _)) =>
  apply keeps_log_logger : keeps_log.
#[local] Hint Extern 1 (keeps_log (logger_error _)) =>
  apply keeps_log_logger : keeps_log.
#[local] Hint Extern 2 (keeps_log (_ ≫= _)) =>
  apply keeps_log_bind; [|intro] : keeps_log.
#[local] Hint Extern 2 (keeps_log (try_except _ _ _)) =>
  apply keeps_log_try_except; [|intro] : keeps_log.
#[local] Hint Extern 3 (keeps_log (if ?b then _ else _)) =>
  destruct b : keeps_log.
#[local] Hint Extern 3 (keeps_log (match ?x with VStr _ => _ | _ => _ end)) =>
  destruct x : keeps_log.

Lemma keeps_log_query_groq `{Ext : Externals} (doc : string) (is_resume : bool) :
  keeps_log (query_groq doc is_resume).
Proof.
  unfold query_groq, select_prompt, upstream_error, coerce_response,
    response_json, coerce, json_loads_value.
  auto 20 with keeps_log.
Qed.

(** ** Resume endpoint: what decides the rejection *)

Section ContentTypeCheck.

Context `{Ext : Externals}.

Lemma query_groq_never_rejects (doc : string) (is_resume : bool) (w : World) :
  fst (query_groq doc is_resume w)
  ≠ Raise (HTTPException 400 "Only PDF files are supported").
Proof.
  destruct (AsyncClient_post (groq_request doc is_resume)) as [response|c m] eqn:Hpost.
  - rewrite (query_groq_answered doc is_resume w response Hpost).
    destruct (negb (status_code response =? 200)%Z).
    + rewrite upstream_error_run. simpl. discriminate.
    + rewrite coerce_response_run.
      destruct (json_loads (text response)) as [[? ?]|v]; [discriminate|].
      destruct (first_choice_content v); [|discriminate].
      rewrite coerce_run. destruct a; try discriminate.
      destruct (json_loads _) as [[[] ?]|?]; discriminate.
  - rewrite query_groq_run, Hpost. destruct (is_RequestError c); discriminate.
Qed.

Lemma extract_text_from_pdf_never_rejects (u : UploadFile) (w : World) :
  fst (extract_text_from_pdf u w)
  ≠ Raise (HTTPException 400 "Only PDF files are supported").
Proof.
  rewrite extract_text_from_pdf_run.
  destruct (_ ≫= _); discriminate.
Qed.

Lemma parse_resume_accepted_never_rejects (u : UploadFile) (w : World) :
  fst (parse_resume_accepted u w)
  ≠ Raise (HTTPException 400 "Only PDF files are supported").
Proof.
  unfold parse_resume_accepted. unfold mbind at 1, M_bind.
  pose proof (extract_text_from_pdf_never_rejects u w) as Hx.
  destruct (extract_text_from_pdf u w) as [[resume_text|e] w1];
    [|simpl in *; congruence].
  unfold mbind at 1, M_bind.
  pose proof (query_groq_never_rejects resume_text true w1) as Hq.
  destruct (query_groq resume_text true w1) as [[parsed_info|e] w2]; [|exact Hq].
  discriminate.
Qed.

(** Once the check is passed the upload is saved to its temporary file,
    whatever its bytes are, and the log keeps the record of it. *)
Lemma parse_resume_accepted_saves (u : UploadFile) (w : World) :
  (INFO, "Saved uploaded PDF to temporary file: " +:+ temp_path_in w)
  ∈ log (snd (parse_resume_accepted u w)).
Proof.
  assert (Hsaved : (INFO, "Saved uploaded PDF to temporary file: "
                          +:+ temp_path_in w) ∈ log (saved u w)).
  { unfold saved. simpl. apply elem_of_app. right. apply list_elem_of_singleton.
    reflexivity. }
  unfold parse_resume_accepted. unfold mbind at 1, M_bind.
  rewrite extract_text_from_pdf_run.
  destruct (_ ≫= _) as [resume_text|c m].
  - cbv beta iota.
    match goal with |- _ ∈ log (snd (_ ?w1)) =>
      apply (log_extends_elem w1) end.
    + apply (keeps_log_bind (query_groq resume_text true)).
      * apply keeps_log_query_groq.
      * intros parsed_info. apply keeps_log_bind.
        -- apply keeps_log_logger.
        -- intros _. apply keeps_log_ret.
    + simpl. apply elem_of_app. left. exact Hsaved.
  - simpl. apply elem_of_app. left. exact Hsaved.
Qed.

End ContentTypeCheck.

(** The two uploads, run: both pass the check; the PDF is parsed, the other
    payload fails in extraction with a 500, its temporary file left behind. *)
Lemma parse_resume_runs :
  fst (@parse_resume (demo_externals upstream_json) (pdf_upload tiny_pdf)
         empty_world) = Return (VDict [])
  ∧ fst (@parse_resume (demo_externals upstream_json) (pdf_upload not_a_pdf)
           empty_world)
    = Raise (HTTPException 500
               "Error extracting text from PDF: EOF marker not found")
  ∧ fst (@parse_resume (demo_externals upstream_json) text_upload empty_world)
    = Raise (HTTPException 400 "Only PDF files are supported").
Proof. repeat split; vm_compute; reflexivity. Qed.

(** * Further properties of the handlers *)

(** ** Text extractor: the pages *)

Lemma append_assoc (a b c : string) : (a +:+ b) +:+ c = a +:+ (b +:+ c).
Proof.
  induction a as [|x a IH]; [reflexivity|].
  change (String x ((a +:+ b) +:+ c) = String x (a +:+ (b +:+ c))).
  by rewrite IH.
Qed.

Section ExtractorPages.

Context `{Ext : Externals}.

Lemma pages_text_ok (pages : list Page) (texts : list string) (acc : string) :
  Forall2 (λ page t, extract_text page = LibOk t) pages texts →
  pages_text pages acc = LibOk (acc +:+ join_texts texts).
Proof.
  intros Hall. revert acc.
  induction Hall as [|page t pages texts Hpage _ IH]; intros acc.
  - simpl. by rewrite append_empty.
  - simpl. unfold mbind, lib_result_bind. rewrite Hpage, IH.
    by rewrite append_assoc.
Qed.

Lemma pages_text_fail (before after : list Page) (page : Page)
    (texts : list string) (acc : string) (c : exc_class) (m : string) :
  Forall2 (λ page t, extract_text page = LibOk t) before texts →
  extract_text page = LibRaise c m →
  pages_text (before ++ page :: after)%list acc = LibRaise c m.
Proof.
  intros Hall Hpage. revert acc.
  induction Hall as [|p t before texts Hp _ IH]; intros acc.
  - simpl. unfold mbind, lib_result_bind. by rewrite Hpage.
  - simpl. unfold mbind, lib_result_bind. rewrite Hp. apply IH.
Qed.

Lemma extract_text_from_pdf_by_text (u : UploadFile) (w : World) :
  extract_text_from_pdf u w =
    match pdf_text u with
    | LibOk text => (Return text, extracted u text w)
    | LibRaise c m =>
        (Raise (HTTPException 500 ("Error extracting text from PDF: " +:+ m)),
         add_log ERROR ("Error extracting text from PDF: " +:+ m) (saved u w))
    end.
Proof. apply extract_text_from_pdf_run. Qed.

Lemma extracted_fs (u : UploadFile) (text : string) (w : World) :
  fs (extracted u text w) = fs w.
Proof. unfold extracted. simpl. apply delete_insert_id, temp_path_fresh. Qed.

(** X1. When the reader opens the file and every page yields its text, the
    extractor returns the texts of the pages joined in page order, with no
    separator; the file system is what it was before the call and nothing
    is posted. *)
Theorem extract_text_from_pdf_joins_pages (u : UploadFile) (w : World)
    (pages : list Page) (texts : list string) :
  PdfReader (file_bytes u) = LibOk pages →
  Forall2 (λ page t, extract_text page = LibOk t) pages texts →
  ∃ w',
    extract_text_from_pdf u w = (Return (join_texts texts), w')
    ∧ fs w' = fs w
    ∧ sent w' = sent w.
Proof.
  intros Hread Hpages.
  assert (Htext : pdf_text u = LibOk (join_texts texts)).
  { unfold pdf_text. rewrite Hread.
    change (pages_text pages "" = LibOk (join_texts texts)).
    by rewrite (pages_text_ok pages texts "" Hpages). }
  rewrite extract_text_from_pdf_by_text, Htext.
  eexists. split; [reflexivity|]. split; [apply extracted_fs|reflexivity].
Qed.

(** X2. When a page in the middle of the document cannot be extracted, the
    call fails with the 500 error carrying that page's message, the text of
    the pages before it is dropped, and the temporary file is left in the
    file system. *)
Theorem extract_text_from_pdf_leaks_on_page_error (u : UploadFile) (w : World)
    (before after : list Page) (page : Page) (texts : list string)
    (c : exc_class) (m : string) :
  PdfReader (file_bytes u) = LibOk (before ++ page :: after)%list →
  Forall2 (λ page t, extract_text page = LibOk t) before texts →
  extract_text page = LibRaise c m →
  ∃ w',
    extract_text_from_pdf u w =
      (Raise (HTTPException 500 ("Error extracting text from PDF: " +:+ m)), w')
    ∧ fs w !! temp_path_in w = None
    ∧ fs w' !! temp_path_in w = Some (file_bytes u).
Proof.
  intros Hread Hbefore Hpage.
  assert (Htext : pdf_text u = LibRaise c m).
  { unfold pdf_text. rewrite Hread.
    change (pages_text (before ++ page :: after)%list "" = LibRaise c m).
    by apply (pages_text_fail before after page texts). }
  rewrite extract_text_from_pdf_by_text, Htext.
  eexists. split; [reflexivity|]. split; [apply temp_path_fresh|].
  simpl. apply lookup_insert_eq.
Qed.

(** X3. Whatever the upload and whatever fails inside, the extractor either
    returns the text of the document or raises an [HTTPException] of status
    500 whose detail is "Error extracting text from PDF: " followed by the
    message of the failure: no library exception escapes it, and it posts
    nothing. *)
Theorem extract_text_from_pdf_outcomes (u : UploadFile) (w : World) :
  ((∃ text, pdf_text u = LibOk text
            ∧ fst (extract_text_from_pdf u w) = Return text)
   ∨ (∃ c m, pdf_text u = LibRaise c m
             ∧ fst (extract_text_from_pdf u w) =
               Raise (HTTPException 500
                        ("Error extracting text from PDF: " +:+ m))))
  ∧ sent (snd (extract_text_from_pdf u w)) = sent w.
Proof.
  rewrite extract_text_from_pdf_by_text.
  destruct (pdf_text u) as [text|c m]; (split; [|reflexivity]).
  - left. by exists text.
  - right. by exists c, m.
Qed.

End ExtractorPages.

Lemma extract_text_from_pdf_joins_pages_witness :
  PdfReader (Externals := paged_externals demo_json_loads upstream_json)
    (file_bytes (pdf_upload tiny_pdf)) = LibOk [x41; x64; x61]
  ∧ Forall2 (λ page t, paged_extract_text page = LibOk t)
      [x41; x64; x61] ["A"; "d"; "a"]
  ∧ ∃ w',
      @extract_text_from_pdf (paged_externals demo_json_loads upstream_json)
        (pdf_upload tiny_pdf) empty_world = (Return "Ada", w')
      ∧ fs w' = fs empty_world
      ∧ sent w' = sent empty_world.
Proof.
  assert (Hpages : Forall2 (λ page t, paged_extract_text page = LibOk t)
                     [x41; x64; x61] ["A"; "d"; "a"])
    by (repeat constructor).
  split; [reflexivity|]. split; [exact Hpages|].
  exact (@extract_text_from_pdf_joins_pages
           (paged_externals demo_json_loads upstream_json)
           (pdf_upload tiny_pdf) empty_world [x41; x64; x61] ["A"; "d"; "a"]
           eq_refl Hpages).
Defined.

Lemma extract_text_from_pdf_leaks_on_page_error_witness :
  PdfReader (Externals := paged_externals demo_json_loads upstream_json)
    (file_bytes (pdf_upload damaged_pdf)) = LibOk ([x41] ++ x00 :: [x61])%list
  ∧ paged_extract_text x00 = LibRaise OtherException "unsupported encoding"
  ∧ ∃ w',
      @extract_text_from_pdf (paged_externals demo_json_loads upstream_json)
        (pdf_upload damaged_pdf) empty_world =
        (Raise (HTTPException 500
                  ("Error extracting text from PDF: " +:+ "unsupported encoding")),
         w')
      ∧ fs w' !! "0" = Some damaged_pdf.
Proof.
  split; [reflexivity|]. split; [reflexivity|].
  destruct (@extract_text_from_pdf_leaks_on_page_error
              (paged_externals demo_json_loads upstream_json)
              (pdf_upload damaged_pdf) empty_world [x41] [x61] x00 ["A"]
              OtherException "unsupported encoding" eq_refl
              ltac:(repeat constructor) eq_refl)
    as (w' & Hrun & _ & Hfile).
  exists w'. split; [exact Hrun|exact Hfile].
Defined.

(** ** Completion client: the other outcomes *)

Section QueryGroqOutcomes.

Context `{Ext : Externals}.

Lemma getitem_first (x : value) (l : list value) :
  getitem (VList (x :: l)) (KInt 0) = LibOk x.
Proof.
  unfold getitem, norm_index. simpl length.
  replace ((0 <=? 0)%Z && (0 <? Z.of_nat (S (length l)))%Z) with true
    by (symmetry; apply andb_true_iff; split; [done|apply Z.ltb_lt; lia]).
  reflexivity.
Qed.

(** X4. The subscripts of line 209 succeed exactly on a dictionary whose
    "choices" is a list that starts with a dictionary whose "message" is a
    dictionary with a "content" key, and what they yield is the value under
    that key. *)
Theorem first_choice_content_succeeds_iff (result x : value) :
  first_choice_content result = LibOk x
  ↔ ∃ d c rest m,
      result = VDict d
      ∧ dict_get d "choices" = Some (VList (VDict c :: rest))
      ∧ dict_get c "message" = Some (VDict m)
      ∧ dict_get m "content" = Some x.
Proof.
  split.
  - unfold first_choice_content, mbind, lib_result_bind.
    destruct result as [| | | | |?|d]; try discriminate. simpl.
    destruct (dict_get d "choices") as [choices|] eqn:Hd; [|discriminate].
    destruct choices as [| | | |s|l|?]; try discriminate.
    + simpl. destruct (norm_index 0 (String.length s) ≫= (λ n, get n s));
        discriminate.
    + destruct l as [|choice rest]; [discriminate|].
      rewrite getitem_first.
      destruct choice as [| | | | |?|c]; try discriminate. simpl.
      destruct (dict_get c "message") as [message|] eqn:Hc; [|discriminate].
      destruct message as [| | | | |?|m]; try discriminate. simpl.
      destruct (dict_get m "content") as [content|] eqn:Hm; [|discriminate].
      intros [= <-]. by exists d, c, rest, m.
  - intros (d & c & rest & m & -> & Hd & Hc & Hm).
    unfold first_choice_content, mbind, lib_result_bind.
    simpl. rewrite Hd, getitem_first. simpl. rewrite Hc. simpl. by rewrite Hm.
Qed.

(** X5. [query_groq] returns a value in one situation only: the post went
    through, the upstream status is exactly 200, the body parses, its first
    choice carries a string as content, and [json.loads] on that string
    either returns, the value being what it returns, or raises
    [JSONDecodeError], the value being the string itself.  In every other
    situation the call raises. *)
Theorem query_groq_returns_iff (doc : string) (is_resume : bool) (w : World)
    (v : value) :
  fst (query_groq doc is_resume w) = Return v
  ↔ ∃ response result s,
      AsyncClient_post (groq_request doc is_resume) = LibOk response
      ∧ status_code response = 200
      ∧ json_loads (text response) = inr result
      ∧ first_choice_content result = LibOk (VStr s)
      ∧ (json_loads s = inr v
         ∨ ((∃ m, json_loads s = inl (Malformed, m)) ∧ v = VStr s)).
Proof.
  split.
  - destruct (AsyncClient_post (groq_request doc is_resume))
      as [response|c m] eqn:Hpost.
    + destruct (decide (status_code response = 200)) as [Hstatus|Hstatus].
      * rewrite (query_groq_status_200 doc is_resume w response Hpost Hstatus).
        rewrite coerce_response_run.
        destruct (json_loads (text response)) as [[k m]|result] eqn:Hbody;
          [discriminate|].
        destruct (first_choice_content result) as [x|c m] eqn:Hc; [|discriminate].
        destruct x; try (rewrite coerce_run; discriminate).
        rewrite coerce_passthrough. intros Hv.
        exists response, result, s. repeat split; try done.
        destruct (json_loads s) as [[[] m]|parsed]; try discriminate.
        -- right. injection Hv as <-. split; [by exists m|done].
        -- left. by injection Hv as <-.
      * rewrite (query_groq_answered doc is_resume w response Hpost).
        apply Z.eqb_neq in Hstatus. rewrite Hstatus. discriminate.
    + rewrite query_groq_run, Hpost. destruct (is_RequestError c); discriminate.
  - intros (response & result & s & Hpost & Hstatus & Hbody & Hc & Hs).
    rewrite (query_groq_status_200 doc is_resume w response Hpost Hstatus).
    rewrite coerce_response_run, Hbody, Hc, coerce_passthrough.
    destruct Hs as [Hs | [[m Hs] ->]]; by rewrite Hs.
Qed.

(** X6. A 200 response whose body is not JSON makes [response.json()] raise
    a [JSONDecodeError] outside the inner [try]: the exception leaves
    [query_groq] as it is, after the one request, and the framework answers
    a bare 500. *)
Theorem query_groq_undecodable_body (doc : string) (is_resume : bool)
    (w : World) (response : Response) (m : string) :
  AsyncClient_post (groq_request doc is_resume) = LibOk response →
  status_code response = 200 →
  json_loads (text response) = inl (Malformed, m) →
  query_groq doc is_resume w =
    (Raise (PyError JSONDecodeError m), posted doc is_resume w)
  ∧ error_response (PyError JSONDecodeError m) =
      mkHttpResponse 500 (TextBody "Internal Server Error").
Proof.
  intros Hpost Hstatus Hbody.
  rewrite (query_groq_status_200 doc is_resume w response Hpost Hstatus).
  by rewrite coerce_response_run, Hbody.
Qed.

(** X7. A 200 response whose first choice carries a content that is not a
    string ([null], a number, an object already parsed) makes [json.loads]
    raise a [TypeError] that names the type of the content, which
    [except json.JSONDecodeError] does not catch: the coercer hands back
    strings only, and this exception escapes. *)
Theorem query_groq_content_not_str (doc : string) (is_resume : bool)
    (w : World) (response : Response) (result x : value) :
  AsyncClient_post (groq_request doc is_resume) = LibOk response →
  status_code response = 200 →
  json_loads (text response) = inr result →
  first_choice_content result = LibOk x →
  (∀ s, x ≠ VStr s) →
  fst (query_groq doc is_resume w) =
    Raise (PyError TypeError
             ("the JSON object must be str, bytes or bytearray, not "
              +:+ type_name x)).
Proof.
  intros Hpost Hstatus Hbody Hc Hx.
  rewrite (query_groq_status_200 doc is_resume w response Hpost Hstatus).
  rewrite coerce_response_run, Hbody, Hc, coerce_run.
  destruct x; try reflexivity. by destruct (Hx s).
Qed.

(** X8. An exception of the post whose class is not a subclass of
    [httpx.RequestError] (a [RuntimeError], say; the transport, decoding and
    redirect errors of httpx all are subclasses) is not caught: it leaves
    [query_groq] unchanged, without the "Error communicating" record in the
    log, the request having been attempted once. *)
Theorem query_groq_other_exception (doc : string) (is_resume : bool)
    (w : World) (c : exc_class) (m : string) :
  AsyncClient_post (groq_request doc is_resume) = LibRaise c m →
  is_RequestError c = false →
  query_groq doc is_resume w = (Raise (PyError c m), posted doc is_resume w)
  ∧ log (posted doc is_resume w) =
      (log w ++
       [(INFO, if is_resume then "Processing resume text"
               else "Processing job description text");
        (INFO, "Sending request to Groq API with model: llama3-70b-8192")])%list.
Proof.
  intros Hpost Hc. rewrite query_groq_run, Hpost, Hc.
  split; [reflexivity|]. simpl. by rewrite <- app_assoc.
Qed.

Lemma query_groq_status_not_200_run (doc : string) (is_resume : bool)
    (w : World) (response : Response) :
  AsyncClient_post (groq_request doc is_resume) = LibOk response →
  status_code response ≠ 200 →
  query_groq doc is_resume w = upstream_error response (posted doc is_resume w).
Proof.
  intros Hpost Hstatus.
  rewrite (query_groq_answered doc is_resume w response Hpost).
  apply Z.eqb_neq in Hstatus. by rewrite Hstatus.
Qed.

(** X9. The test of line 201 is against 200 alone: any other status, the
    successful ones (201, 204, ...) included, is raised as an
    [HTTPException] carrying that very status, and the body is never
    parsed. *)
Theorem query_groq_status_not_200 (doc : string) (is_resume : bool) (w : World)
    (response : Response) :
  AsyncClient_post (groq_request doc is_resume) = LibOk response →
  status_code response ≠ 200 →
  query_groq doc is_resume w =
    (Raise (HTTPException (status_code response)
              ("Groq API Error: " +:+ text response)),
     add_log ERROR ("Groq API Error: " +:+ pretty (status_code response)
                    +:+ " - " +:+ text response)
       (posted doc is_resume w)).
Proof.
  intros Hpost Hstatus.
  rewrite (query_groq_answered doc is_resume w response Hpost).
  apply Z.eqb_neq in Hstatus. by rewrite Hstatus.
Qed.

End QueryGroqOutcomes.

Lemma query_groq_undecodable_body_witness :
  demo_json_loads "<html>Bad gateway</html>"
    = inl (Malformed, "Expecting value: line 1 column 1 (char 0)")
  ∧ fst (@query_groq (demo_externals upstream_html) "cv" true empty_world)
    = Raise (PyError JSONDecodeError "Expecting value: line 1 column 1 (char 0)").
Proof.
  split; [reflexivity|].
  exact (f_equal fst
           (proj1 (@query_groq_undecodable_body (demo_externals upstream_html)
                     "cv" true empty_world
                     (mkResponse 200 "<html>Bad gateway</html>")
                     "Expecting value: line 1 column 1 (char 0)"
                     eq_refl eq_refl eq_refl))).
Defined.

Lemma query_groq_content_not_str_witness :
  (∀ s, VNone ≠ VStr s)
  ∧ fst (@query_groq (paged_externals wider_json_loads upstream_null_content)
           "cv" false empty_world)
    = Raise (PyError TypeError
               "the JSON object must be str, bytes or bytearray, not NoneType").
Proof.
  assert (Hnone : ∀ s, VNone ≠ VStr s) by discriminate.
  split; [exact Hnone|].
  exact (@query_groq_content_not_str
           (paged_externals wider_json_loads upstream_null_content)
           "cv" false empty_world (mkResponse 200 body_null_content)
           (VDict [("choices",
                    VList [VDict [("message", VDict [("content", VNone)])]])])
           VNone eq_refl eq_refl eq_refl eq_refl Hnone).
Defined.

Lemma query_groq_other_exception_witness :
  is_RequestError RuntimeError = false
  ∧ fst (@query_groq (demo_externals upstream_broken) "cv" true empty_world)
    = Raise (PyError RuntimeError "Event loop is closed").
Proof.
  split; [reflexivity|].
  exact (f_equal fst
           (proj1 (@query_groq_other_exception (demo_externals upstream_broken)
                     "cv" true empty_world RuntimeError
                     "Event loop is closed" eq_refl eq_refl))).
Defined.

Lemma query_groq_status_not_200_witness :
  (201 ≠ 200)%Z
  ∧ fst (@query_groq (demo_externals upstream_created) "cv" true empty_world)
    = Raise (HTTPException 201 ("Groq API Error: " +:+ body_empty_object)).
Proof.
  assert (Hne : status_code (mkResponse 201 body_empty_object) ≠ 200)
    by (simpl; lia).
  split; [lia|].
  exact (f_equal fst
           (@query_groq_status_not_200 (demo_externals upstream_created)
              "cv" true empty_world (mkResponse 201 body_empty_object)
              eq_refl Hne)).
Defined.

(** ** Endpoints: how the parts compose *)

Section Endpoints.

Context `{Ext : Externals}.

Lemma parse_resume_accepted_by_text (u : UploadFile) (w : World) :
  parse_resume_accepted u w =
    match pdf_text u with
    | LibRaise c m =>
        (Raise (HTTPException 500 ("Error extracting text from PDF: " +:+ m)),
         add_log ERROR ("Error extracting text from PDF: " +:+ m) (saved u w))
    | LibOk t =>
        match query_groq t true (extracted u t w) with
        | (Return v, w2) => (Return v, add_log INFO "Successfully parsed resume" w2)
        | (Raise e, w2) => (Raise e, w2)
        end
    end.
Proof.
  unfold parse_resume_accepted. unfold mbind at 1, M_bind.
  rewrite extract_text_from_pdf_by_text.
  destruct (pdf_text u) as [t|c m]; [|reflexivity].
  unfold mbind at 1, M_bind.
  destruct (query_groq t true (extracted u t w)) as [[v|e] w2]; reflexivity.
Qed.

Lemma parse_job_description_run (job_description : string) (w : World) :
  parse_job_description job_description w =
    match query_groq job_description false
            (add_log INFO "Received job description parsing request" w) with
    | (Return v, w2) =>
        (Return v, add_log INFO "Successfully parsed job description" w2)
    | (Raise e, w2) => (Raise e, w2)
    end.
Proof.
  unfold parse_job_description. unfold mbind at 1, M_bind. simpl.
  unfold mbind at 1, M_bind.
  destruct (query_groq job_description false _) as [[v|e] w2]; reflexivity.
Qed.

(** X10. The job-description route hands the form text, as it came, to the
    completion client with the job-description prompt: its outcome, value or
    exception, is the client's own; it posts that one request and touches
    no file. *)
Theorem parse_job_description_forwards (job_description : string) (w : World) :
  fst (parse_job_description job_description w) =
    fst (query_groq job_description false
           (add_log INFO "Received job description parsing request" w))
  ∧ fs (snd (parse_job_description job_description w)) = fs w
  ∧ sent (snd (parse_job_description job_description w)) =
      (sent w ++
       [mkRequest GROQ_API_URL (payload JOB_SYSTEM_PROMPT job_description)
          headers 60.0%Q])%list.
Proof.
  rewrite parse_job_description_run.
  destruct (query_groq_world job_description false
              (add_log INFO "Received job description parsing request" w))
    as [Hfs Hsent].
  destruct (query_groq job_description false _) as [[v|e] w2]; simpl in *;
    by repeat split.
Qed.

(** X11. For an upload labelled PDF whose text is extracted, the resume
    route answers with the outcome of the completion client on that text
    under the resume prompt; once it is done the file system is what it was
    before the request, and exactly one request has been posted. *)
Theorem parse_resume_queries_extracted_text (u : UploadFile) (w : World)
    (t : string) :
  content_type u = Some "application/pdf" →
  pdf_text u = LibOk t →
  fst (parse_resume u w) =
    fst (query_groq t true
           (extracted u t
              (add_log INFO ("Received resume parsing request: "
                             +:+ str_optional (filename u)) w)))
  ∧ fs (snd (parse_resume u w)) = fs w
  ∧ sent (snd (parse_resume u w)) =
      (sent w ++
       [mkRequest GROQ_API_URL (payload RESUME_SYSTEM_PROMPT t) headers 60.0%Q])%list.
Proof.
  intros Hpdf Htext.
  rewrite (parse_resume_accepted_run u w Hpdf).
  rewrite parse_resume_accepted_by_text, Htext.
  set (w0 := add_log INFO _ w).
  destruct (query_groq_world t true (extracted u t w0)) as [Hfs Hsent].
  rewrite extracted_fs in Hfs.
  destruct (query_groq t true (extracted u t w0)) as [[v|e] w2]; simpl in *;
    by repeat split.
Qed.

(** X12. For an upload labelled PDF whose extraction fails, the resume route
    answers 500 with the extractor's message and stops there: the completion
    endpoint is never called. *)
Theorem parse_resume_extraction_failure (u : UploadFile) (w : World)
    (c : exc_class) (m : string) :
  content_type u = Some "application/pdf" →
  pdf_text u = LibRaise c m →
  fst (parse_resume u w) =
    Raise (HTTPException 500 ("Error extracting text from PDF: " +:+ m))
  ∧ fst (serve (POST_parse_resume u) w) =
      Some (mkHttpResponse 500
              (JSONBody (VDict [("detail",
                                 VStr ("Error extracting text from PDF: " +:+ m))])))
  ∧ sent (snd (parse_resume u w)) = sent w.
Proof.
  intros Hpdf Htext. unfold serve, app.
  rewrite (parse_resume_accepted_run u w Hpdf).
  rewrite parse_resume_accepted_by_text, Htext. by repeat split.
Qed.

Lemma query_groq_http_errors (doc : string) (is_resume : bool) (w : World)
    (s : Z) (d : string) :
  fst (query_groq doc is_resume w) = Raise (HTTPException s d) →
  (s ≠ 200 ∧ ∃ body, d = "Groq API Error: " +:+ body)
  ∨ (s = 500 ∧ ∃ m, d = "Error communicating with Groq API: " +:+ m).
Proof.
  destruct (AsyncClient_post (groq_request doc is_resume))
    as [response|c m] eqn:Hpost.
  - destruct (decide (status_code response = 200)) as [Hstatus|Hstatus].
    + rewrite (query_groq_status_200 doc is_resume w response Hpost Hstatus).
      rewrite coerce_response_run.
      destruct (json_loads (text response)) as [[? ?]|v]; [discriminate|].
      destruct (first_choice_content v); [|discriminate].
      rewrite coerce_run. destruct a; try discriminate.
      destruct (json_loads _) as [[[] ?]|?]; discriminate.
    + rewrite (query_groq_status_not_200_run doc is_resume w response Hpost Hstatus).
      intros [= <- <-]. left. split; [done|]. by eexists.
  - rewrite query_groq_run, Hpost. destruct (is_RequestError c); [|discriminate].
    intros [= <- <-]. right. split; [done|]. by eexists.
Qed.

(** X13. The [HTTPException]s of the resume route are of four kinds, told
    apart by their detail: the 400 of the content-type check; the 500 of the
    extractor; the upstream's own status, never 200, with "Groq API Error: ";
    the 500 of a transport failure.  A 400 can thus also come from the
    upstream, for an upload that passed the check. *)
Theorem parse_resume_http_errors (u : UploadFile) (w : World) (s : Z) (d : string) :
  fst (parse_resume u w) = Raise (HTTPException s d) →
  (s = 400 ∧ d = "Only PDF files are supported"
   ∧ content_type u ≠ Some "application/pdf")
  ∨ (s = 500 ∧ ∃ m, d = "Error extracting text from PDF: " +:+ m)
  ∨ (s ≠ 200 ∧ ∃ body, d = "Groq API Error: " +:+ body)
  ∨ (s = 500 ∧ ∃ m, d = "Error communicating with Groq API: " +:+ m).
Proof.
  destruct (decide (content_type u = Some "application/pdf")) as [Hpdf|Hother].
  - rewrite (parse_resume_accepted_run u w Hpdf), parse_resume_accepted_by_text.
    destruct (pdf_text u) as [t|c m].
    + set (w0 := extracted u t _).
      pose proof (query_groq_http_errors t true w0 s d) as Hq.
      destruct (query_groq t true w0) as [[v|e] w2]; [discriminate|].
      intros Hraise. right. right. apply Hq. exact Hraise.
    + intros [= <- <-]. right. left. split; [done|]. by eexists.
  - rewrite (parse_resume_rejected_run u w Hother). intros [= <- <-]. by left.
Qed.

End Endpoints.

Lemma parse_resume_queries_extracted_text_witness :
  content_type (pdf_upload tiny_pdf) = Some "application/pdf"
  ∧ pdf_text (Ext := demo_externals upstream_json) (pdf_upload tiny_pdf)
    = LibOk "Ada"
  ∧ fs (snd (@parse_resume (demo_externals upstream_json) (pdf_upload tiny_pdf)
               empty_world)) = fs empty_world
  ∧ sent (snd (@parse_resume (demo_externals upstream_json) (pdf_upload tiny_pdf)
                 empty_world)) =
      (sent empty_world ++
       [mkRequest GROQ_API_URL (payload RESUME_SYSTEM_PROMPT "Ada")
          headers 60.0%Q])%list.
Proof.
  split; [reflexivity|]. split; [reflexivity|].
  exact (proj2 (@parse_resume_queries_extracted_text
                  (demo_externals upstream_json) (pdf_upload tiny_pdf)
                  empty_world "Ada" eq_refl eq_refl)).
Defined.

Lemma parse_resume_extraction_failure_witness :
  content_type (pdf_upload not_a_pdf) = Some "application/pdf"
  ∧ pdf_text (Ext := demo_externals upstream_json) (pdf_upload not_a_pdf)
    = LibRaise PdfReadError "EOF marker not found"
  ∧ fst (@parse_resume (demo_externals upstream_json) (pdf_upload not_a_pdf)
           empty_world) =
      Raise (HTTPException 500
               ("Error extracting text from PDF: " +:+ "EOF marker not found"))
  ∧ sent (snd (@parse_resume (demo_externals upstream_json)
                 (pdf_upload not_a_pdf) empty_world)) = sent empty_world.
Proof.
  split; [reflexivity|]. split; [reflexivity|].
  destruct (@parse_resume_extraction_failure (demo_externals upstream_json)
              (pdf_upload not_a_pdf) empty_world PdfReadError
              "EOF marker not found" eq_refl eq_refl) as (Hrun & _ & Hsent).
  split; [exact Hrun|exact Hsent].
Defined.

Lemma parse_resume_http_errors_witness :
  fst (@parse_resume (demo_externals upstream_bad_request) (pdf_upload tiny_pdf)
         empty_world)
    = Raise (HTTPException 400 "Groq API Error: invalid model")
  ∧ ((400 = 400 ∧ "Groq API Error: invalid model" = "Only PDF files are supported"
      ∧ content_type (pdf_upload tiny_pdf) ≠ Some "application/pdf")
     ∨ (400 = 500 ∧ ∃ m, "Groq API Error: invalid model"
                         = "Error extracting text from PDF: " +:+ m)
     ∨ (400 ≠ 200 ∧ ∃ body, "Groq API Error: invalid model"
                            = "Groq API Error: " +:+ body)
     ∨ (400 = 500 ∧ ∃ m, "Groq API Error: invalid model"
                         = "Error communicating with Groq API: " +:+ m)).
Proof.
  assert (Hrun : fst (@parse_resume (demo_externals upstream_bad_request)
                        (pdf_upload tiny_pdf) empty_world)
                 = Raise (HTTPException 400 "Groq API Error: invalid model"))
    by (vm_compute; reflexivity).
  split; [exact Hrun|].
  exact (@parse_resume_http_errors (demo_externals upstream_bad_request)
           (pdf_upload tiny_pdf) empty_world 400
           "Groq API Error: invalid model" Hrun).
Defined.

(** ** Sequences of requests *)

Section Sequences.

Context `{Ext : Externals}.

Lemma app_effects (r : ApiRequest) (w : World) :
  size (fs (snd (app r w))) =
    (size (fs w) + (if fails_extraction r then 1 else 0))%nat
  ∧ length (sent (snd (app r w))) =
    (length (sent w) + (if reaches_upstream r then 1 else 0))%nat.
Proof.
  destruct r as [u|jd|]; simpl app.
  - unfold fails_extraction, reaches_upstream.
    destruct (decide (content_type u = Some "application/pdf")) as [Hpdf|Hother].
    + rewrite (bool_decide_eq_true_2 _ Hpdf). simpl andb.
      rewrite (parse_resume_accepted_run u w Hpdf), parse_resume_accepted_by_text.
      destruct (pdf_text u) as [t|c m].
      * set (w0 := add_log INFO _ w).
        destruct (query_groq_world t true (extracted u t w0)) as [Hfs Hsent].
        rewrite extracted_fs in Hfs.
        destruct (query_groq t true (extracted u t w0)) as [[v|e] w2];
          simpl in *; rewrite Hfs, Hsent, length_app; simpl; split; lia.
      * simpl. split; [|lia].
        rewrite map_size_insert_None; [lia|].
        apply (temp_path_fresh
                 (add_log INFO ("Received resume parsing request: "
                                +:+ str_optional (filename u)) w)).
    + rewrite (bool_decide_eq_false_2 _ Hother). simpl andb.
      rewrite (parse_resume_rejected_run u w Hother). simpl. split; lia.
  - unfold fails_extraction, reaches_upstream.
    destruct (str_truthy jd); [|simpl; split; lia].
    rewrite parse_job_description_run.
    set (w0 := add_log INFO _ w).
    destruct (query_groq_world jd false w0) as [Hfs Hsent].
    destruct (query_groq jd false w0) as [[v|e] w2];
      simpl in *; rewrite Hfs, Hsent, length_app; simpl; split; lia.
  - rewrite health_check_run. simpl. split; lia.
Qed.

(** X14. After any sequence of requests, the file system holds exactly one
    more file per resume upload that was labelled PDF and failed in
    extraction: such requests are the only ones that leave anything behind,
    and each of them does. *)
Theorem handle_all_leaked_files (rs : list ApiRequest) (w : World) :
  size (fs (handle_all rs w)) =
    (size (fs w) + length (List.filter fails_extraction rs))%nat.
Proof.
  revert w. induction rs as [|r rest IH]; intros w; simpl.
  - lia.
  - rewrite IH. destruct (app_effects r w) as [Hsize _]. rewrite Hsize.
    destruct (fails_extraction r); simpl; lia.
Qed.

(** X15. After any sequence of requests, the completion endpoint has been
    called exactly once per job-description request whose form text is not
    empty and once per resume upload that was labelled PDF and whose text
    was extracted: never for a health probe, a job-description request
    refused by the validation of the form, a rejected upload or a failed
    extraction, and never twice. *)
Theorem handle_all_upstream_calls (rs : list ApiRequest) (w : World) :
  length (sent (handle_all rs w)) =
    (length (sent w) + length (List.filter reaches_upstream rs))%nat.
Proof.
  revert w. induction rs as [|r rest IH]; intros w; simpl.
  - lia.
  - rewrite IH. destruct (app_effects r w) as [_ Hsent]. rewrite Hsent.
    destruct (reaches_upstream r); simpl; lia.
Qed.

End Sequences.

(** Eight requests, run: two temporary files are left, three calls were
    made. *)
Lemma handle_all_runs :
  let rs := [POST_parse_resume (pdf_upload not_a_pdf);
             GET_health;
             POST_parse_resume (pdf_upload tiny_pdf);
             POST_parse_job_description "Compiler engineer";
             POST_parse_resume text_upload;
             POST_parse_job_description "";
             POST_parse_resume (pdf_upload not_a_pdf);
             POST_parse_job_description "Proof engineer"] in
  let w := @handle_all (demo_externals upstream_json) rs empty_world in
  size (fs w) = 2%nat ∧ length (sent w) = 3%nat.
Proof. split; vm_compute; reflexivity. Qed.

(** ** What the log says about a failure *)

Section FailureLog.

Context `{Ext : Externals}.

Lemma query_groq_http_error_logged (doc : string) (is_resume : bool) (w : World)
    (s : Z) (d : string) :
  fst (query_groq doc is_resume w) = Raise (HTTPException s d) →
  ∃ msg, last (log (snd (query_groq doc is_resume w))) = Some (ERROR, msg).
Proof.
  destruct (AsyncClient_post (groq_request doc is_resume))
    as [response|c m] eqn:Hpost.
  - destruct (decide (status_code response = 200)) as [Hstatus|Hstatus].
    + rewrite (query_groq_status_200 doc is_resume w response Hpost Hstatus).
      rewrite coerce_response_run.
      destruct (json_loads (text response)) as [[? ?]|v]; [discriminate|].
      destruct (first_choice_content v); [|discriminate].
      rewrite coerce_run. destruct a; try discriminate.
      destruct (json_loads _) as [[[] ?]|?]; discriminate.
    + rewrite (query_groq_status_not_200_run doc is_resume w response Hpost Hstatus).
      rewrite upstream_error_run. intros _. eexists. simpl. apply last_snoc.
  - rewrite query_groq_run, Hpost. destruct (is_RequestError c); [|discriminate].
    intros _. eexists. simpl. apply last_snoc.
Qed.

(** X16. Whenever a route fails with an [HTTPException], the last record of
    the log is an ERROR record: the handlers log every failure they turn
    into an HTTP error just before raising it. *)
Theorem http_error_is_logged (r : ApiRequest) (w : World) (s : Z) (d : string) :
  fst (app r w) = Raise (HTTPException s d) →
  ∃ msg, last (log (snd (app r w))) = Some (ERROR, msg).
Proof.
  destruct r as [u|jd|]; simpl app.
  - destruct (decide (content_type u = Some "application/pdf")) as [Hpdf|Hother].
    + rewrite (parse_resume_accepted_run u w Hpdf), parse_resume_accepted_by_text.
      destruct (pdf_text u) as [t|c m].
      * set (w0 := extracted u t _).
        pose proof (query_groq_http_error_logged t true w0 s d) as Hq.
        destruct (query_groq t true w0) as [[v|e] w2]; [discriminate|].
        exact Hq.
      * intros _. eexists. simpl. apply last_snoc.
    + rewrite (parse_resume_rejected_run u w Hother).
      intros _. eexists. simpl. apply last_snoc.
  - destruct (str_truthy jd); [|discriminate].
    rewrite parse_job_description_run.
    set (w0 := add_log INFO _ w).
    pose proof (query_groq_http_error_logged jd false w0 s d) as Hq.
    destruct (query_groq jd false w0) as [[v|e] w2]; [discriminate|].
    exact Hq.
  - rewrite health_check_run. discriminate.
Qed.

(** X17. When [query_groq] lets an exception of a library or of the
    interpreter escape (a malformed 200 body, a content that is not a
    string or that [json.loads] refuses otherwise than by [JSONDecodeError],
    a failure of the post that is not a [RequestError]), it has logged INFO
    records only: nothing in the log tells of the failure. *)
Theorem query_groq_escape_not_logged (doc : string) (is_resume : bool)
    (w : World) (c : exc_class) (m : string) :
  fst (query_groq doc is_resume w) = Raise (PyError c m) →
  ∃ records,
    log (snd (query_groq doc is_resume w)) = (log w ++ records)%list
    ∧ Forall (λ r, fst r = INFO) records.
Proof.
  assert (Hposted : ∀ extra,
            Forall (λ r : level * string, fst r = INFO) extra →
            ∃ records,
              (log (posted doc is_resume w) ++ extra)%list
              = (log w ++ records)%list
              ∧ Forall (λ r, fst r = INFO) records).
  { intros extra Hextra. eexists. split.
    - simpl. rewrite <- !app_assoc. reflexivity.
    - simpl. by repeat constructor. }
  destruct (AsyncClient_post (groq_request doc is_resume))
    as [response|c' m'] eqn:Hpost.
  - destruct (decide (status_code response = 200)) as [Hstatus|Hstatus].
    + rewrite (query_groq_status_200 doc is_resume w response Hpost Hstatus).
      rewrite coerce_response_run.
      destruct (json_loads (text response)) as [[k mk]|v].
      { intros _. destruct (Hposted []) as (l & Hl & Hall); [constructor|].
        rewrite app_nil_r in Hl. by exists l. }
      destruct (first_choice_content v).
      2:{ intros _. destruct (Hposted []) as (l & Hl & Hall); [constructor|].
          rewrite app_nil_r in Hl. by exists l. }
      rewrite coerce_run.
      destruct a; try (intros _; apply (Hposted [(INFO, _)]); by repeat constructor).
      destruct (json_loads s) as [[[] ms]|parsed]; try discriminate;
        (intros _; apply (Hposted [(INFO, _)]); by repeat constructor).
    + rewrite (query_groq_status_not_200_run doc is_resume w response Hpost Hstatus).
      rewrite upstream_error_run. discriminate.
  - rewrite query_groq_run, Hpost. destruct (is_RequestError c'); [discriminate|].
    intros _. destruct (Hposted []) as (l & Hl & Hall); [constructor|].
    rewrite app_nil_r in Hl. by exists l.
Qed.

End FailureLog.

Lemma http_error_is_logged_witness :
  fst (@app (demo_externals upstream_timeout)
         (POST_parse_job_description "Proof engineer") empty_world)
    = Raise (HTTPException 500
               "Error communicating with Groq API: The read operation timed out")
  ∧ ∃ msg,
      last (log (snd (@app (demo_externals upstream_timeout)
                        (POST_parse_job_description "Proof engineer")
                        empty_world))) = Some (ERROR, msg).
Proof.
  assert (Hrun : fst (@app (demo_externals upstream_timeout)
                        (POST_parse_job_description "Proof engineer") empty_world)
                 = Raise (HTTPException 500
                            "Error communicating with Groq API: The read operation timed out"))
    by (vm_compute; reflexivity).
  split; [exact Hrun|].
  exact (@http_error_is_logged (demo_externals upstream_timeout)
           (POST_parse_job_description "Proof engineer") empty_world 500
           "Error communicating with Groq API: The read operation timed out" Hrun).
Defined.

Lemma query_groq_escape_not_logged_witness :
  fst (@query_groq (demo_externals upstream_null_choices) "cv" true empty_world)
    = Raise (PyError TypeError "'NoneType' object is not subscriptable")
  ∧ ∃ records,
      log (snd (@query_groq (demo_externals upstream_null_choices) "cv" true
                  empty_world)) = (log empty_world ++ records)%list
      ∧ Forall (λ r, fst r = INFO) records.
Proof.
  assert (Hrun : fst (@query_groq (demo_externals upstream_null_choices) "cv" true
                        empty_world)
                 = Raise (PyError TypeError "'NoneType' object is not subscriptable"))
    by (vm_compute; reflexivity).
  split; [exact Hrun|].
  exact (@query_groq_escape_not_logged (demo_externals upstream_null_choices)
           "cv" true empty_world TypeError
           "'NoneType' object is not subscriptable" Hrun).
Defined.

(** ** Resume endpoint: the check and what follows it *)

Section ContentTypeDecides.

Context `{Ext : Externals}.

(** C10. Two uploads that declare the same content type get the same verdict
    from the check, whatever their bytes and whatever the state of the
    world: either both are answered with the 400 rejection or neither is.
    An upload labelled [application/pdf] is never rejected and always goes
    through extraction, be its payload a PDF or not: the payload is saved to
    a temporary file and read back by the PDF reader; when the reader or a
    page fails the answer is the extractor's 500, the file is left with the
    payload in it and nothing is posted; when the text is extracted the
    answer is that of the completion client on that text, posted once. *)
Theorem content_type_check_ignores_payload (u1 u2 : UploadFile) (w1 w2 : World) :
  content_type u1 = content_type u2 →
  (fst (parse_resume u1 w1) = Raise (HTTPException 400 "Only PDF files are supported")
   ↔ fst (parse_resume u2 w2) = Raise (HTTPException 400 "Only PDF files are supported"))
  ∧ (content_type u1 = Some "application/pdf" →
     parse_resume u1 w1 =
       parse_resume_accepted u1
         (add_log INFO ("Received resume parsing request: "
                        +:+ str_optional (filename u1)) w1)
     ∧ (INFO, "Saved uploaded PDF to temporary file: " +:+ temp_path_in w1)
       ∈ log (snd (parse_resume u1 w1))
     ∧ (∀ c m,
          pdf_text u1 = LibRaise c m →
          fst (parse_resume u1 w1) =
            Raise (HTTPException 500 ("Error extracting text from PDF: " +:+ m))
          ∧ fs (snd (parse_resume u1 w1))
            = <[temp_path_in w1 := file_bytes u1]> (fs w1)
          ∧ sent (snd (parse_resume u1 w1)) = sent w1)
     ∧ (∀ t,
          pdf_text u1 = LibOk t →
          fst (parse_resume u1 w1) =
            fst (query_groq t true
                   (extracted u1 t
                      (add_log INFO ("Received resume parsing request: "
                                     +:+ str_optional (filename u1)) w1)))
          ∧ fs (snd (parse_resume u1 w1)) = fs w1
          ∧ sent (snd (parse_resume u1 w1))
            = (sent w1 ++ [groq_request t true])%list)).
Proof.
  intros Hsame. split.
  - destruct (decide (content_type u1 = Some "application/pdf")) as [Hpdf|Hother].
    + assert (Hpdf2 : content_type u2 = Some "application/pdf") by congruence.
      rewrite (parse_resume_accepted_run u1 w1 Hpdf).
      rewrite (parse_resume_accepted_run u2 w2 Hpdf2).
      split; intros Hrej; exfalso;
        eapply parse_resume_accepted_never_rejects; exact Hrej.
    + assert (Hother2 : content_type u2 ≠ Some "application/pdf") by congruence.
      rewrite (parse_resume_rejected_run u1 w1 Hother).
      rewrite (parse_resume_rejected_run u2 w2 Hother2).
      done.
  - intros Hpdf. split; [apply (parse_resume_accepted_run u1 w1 Hpdf)|].
    rewrite (parse_resume_accepted_run u1 w1 Hpdf).
    set (w0 := add_log INFO _ w1).
    split; [apply (parse_resume_accepted_saves u1 w0)|].
    rewrite parse_resume_accepted_by_text. split.
    + intros c m Htext. rewrite Htext. by repeat split.
    + intros t Htext. rewrite Htext.
      destruct (query_groq_world t true (extracted u1 t w0)) as [Hfs Hsent].
      rewrite extracted_fs in Hfs.
      destruct (query_groq t true (extracted u1 t w0)) as [[v|e] w'];
        simpl in *; by repeat split.
Qed.

End ContentTypeDecides.

Lemma content_type_check_ignores_payload_witness :
  content_type (pdf_upload not_a_pdf) = content_type (pdf_upload tiny_pdf)
  ∧ not_a_pdf ≠ tiny_pdf
  ∧ (fst (@parse_resume (demo_externals upstream_json) (pdf_upload not_a_pdf)
            empty_world)
       = Raise (HTTPException 400 "Only PDF files are supported")
     ↔ fst (@parse_resume (demo_externals upstream_json) (pdf_upload tiny_pdf)
              empty_world)
       = Raise (HTTPException 400 "Only PDF files are supported"))
  ∧ pdf_text (Ext := demo_externals upstream_json) (pdf_upload not_a_pdf)
    = LibRaise PdfReadError "EOF marker not found"
  ∧ fst (@parse_resume (demo_externals upstream_json) (pdf_upload not_a_pdf)
           empty_world)
    = Raise (HTTPException 500
               ("Error extracting text from PDF: " +:+ "EOF marker not found"))
  ∧ fs (snd (@parse_resume (demo_externals upstream_json) (pdf_upload not_a_pdf)
               empty_world))
    = <["0" := not_a_pdf]> ∅
  ∧ sent (snd (@parse_resume (demo_externals upstream_json)
                 (pdf_upload not_a_pdf) empty_world)) = [].
Proof.
  split; [reflexivity|]. split; [discriminate|].
  destruct (@content_type_check_ignores_payload (demo_externals upstream_json)
              (pdf_upload not_a_pdf) (pdf_upload tiny_pdf) empty_world empty_world
              eq_refl) as [Hiff Hgoes].
  split; [exact Hiff|]. split; [reflexivity|].
  destruct (Hgoes eq_refl) as (_ & _ & Hfails & _).
  exact (Hfails PdfReadError "EOF marker not found" eq_refl).
Defined.
